(** * The Spotify tool server, its LangChain client and the lifespan snippet

    A shallow embedding of

    - [example-server-spotify/spotify_mcp_server.py] (module [Server]),
    - [example-client-spotify/spotify_langchain_client.py] (module [Client]),
    - [mcp-tutorial/.../lifespan_example.py] (module [Lifespan]),

    over a small model of the Python values and built-ins these files use
    (module [Py]).  What the programs print on the console is left out.
    The definitions come first; the statements proved about them follow in
    the second half of the file. *)

From Stdlib Require Import ZArith List String Ascii Bool Lia DecimalString.
Import ListNotations.
Open Scope list_scope.
Open Scope string_scope.

Set Implicit Arguments.
Set Warnings "-register-all".

(* ================================================================== *)
(** * Python values and built-ins *)
(* ================================================================== *)

Module Py.

(** ** Strings

    A Python [str] is a Rocq [string], one [ascii] per code point; this covers
    the code points 0 to 255.  The character tables below are those of
    CPython for that range. *)

Definition chr (n : nat) : ascii := ascii_of_nat n.
Definition ord (c : ascii) : nat := nat_of_ascii c.

Definition nl : string := String (chr 10) "".
Definition dquote : ascii := chr 34.
Definition squote : ascii := chr 39.
Definition backslash : ascii := chr 92.

Definition between (lo hi n : nat) : bool := (lo <=? n)%nat && (n <=? hi)%nat.

(** [c.isspace()], which is also the set [str.strip()] removes. *)
Definition isspace (c : ascii) : bool :=
  let n := ord c in
  between 9 13 n || between 28 32 n || (n =? 133)%nat || (n =? 160)%nat.

(** [c.isalnum()] for one character. *)
Definition isalnum_char (c : ascii) : bool :=
  let n := ord c in
  between 48 57 n || between 65 90 n || between 97 122 n
  || (n =? 170)%nat || between 178 179 n || (n =? 181)%nat
  || between 185 186 n || between 188 190 n
  || between 192 214 n || between 216 246 n || between 248 255 n.

(** [c.isprintable()] for one character. *)
Definition isprintable (c : ascii) : bool :=
  let n := ord c in
  negb (between 0 31 n || between 127 160 n || (n =? 173)%nat).

Fixpoint all_chars (p : ascii -> bool) (s : string) : bool :=
  match s with
  | "" => true
  | String c s' => p c && all_chars p s'
  end.

Fixpoint any_chars (p : ascii -> bool) (s : string) : bool :=
  match s with
  | "" => false
  | String c s' => p c || any_chars p s'
  end.

(** [s.isalnum()]: every character is alphanumeric and there is at least
    one character. *)
Definition isalnum (s : string) : bool :=
  match s with
  | "" => false
  | _ => all_chars isalnum_char s
  end.

(** [s.replace(c, '')] for a one-character [c]. *)
Fixpoint remove_char (c : ascii) (s : string) : string :=
  match s with
  | "" => ""
  | String d s' =>
      if Ascii.eqb d c then remove_char c s' else String d (remove_char c s')
  end.

Fixpoint lstrip (s : string) : string :=
  match s with
  | "" => ""
  | String c s' => if isspace c then lstrip s' else s
  end.

(** [rstrip] keeps a character when it is not white space or when something
    is kept after it. *)
Fixpoint rstrip (s : string) : string :=
  match s with
  | "" => ""
  | String c s' =>
      match rstrip s' with
      | "" => if isspace c then "" else String c ""
      | r => String c r
      end
  end.

(** [s.strip()] *)
Definition strip (s : string) : string := rstrip (lstrip s).

(** [s] does not begin with white space. *)
Definition starts_clean (s : string) : bool :=
  match s with
  | "" => true
  | String c _ => negb (isspace c)
  end.

(** [s] has a character that is not white space. *)
Definition nonblank (s : string) : bool :=
  any_chars (fun c => negb (isspace c)) s.

(** [s] does not end with white space. *)
Fixpoint ends_clean (s : string) : bool :=
  match s with
  | "" => true
  | String c "" => negb (isspace c)
  | String _ s' => ends_clean s'
  end.

(** [s] has no white space at either end. *)
Definition trimmed (s : string) : bool := starts_clean s && ends_clean s.

(** [s.split(sep)] for a one-character separator. *)
Fixpoint split (sep : ascii) (s : string) : list string :=
  match s with
  | "" => [""]
  | String c s' =>
      if Ascii.eqb c sep then "" :: split sep s'
      else match split sep s' with
           | [] => [String c ""]
           | h :: t => String c h :: t
           end
  end.

(** [sep.join(parts)] on strings. *)
Fixpoint join (sep : string) (parts : list string) : string :=
  match parts with
  | [] => ""
  | [p] => p
  | p :: rest => p ++ sep ++ join sep rest
  end.

Fixpoint is_prefix (p s : string) : bool :=
  match p, s with
  | "", _ => true
  | String a p', String b s' => Ascii.eqb a b && is_prefix p' s'
  | String _ _, "" => false
  end.

(** [p in s] *)
Fixpoint contains (p s : string) : bool :=
  is_prefix p s
  || match s with
     | "" => false
     | String _ s' => contains p s'
     end.

Fixpoint has_char (c : ascii) (s : string) : bool :=
  match s with
  | "" => false
  | String d s' => Ascii.eqb d c || has_char c s'
  end.

Definition hex_digit (n : nat) : ascii :=
  if (n <? 10)%nat then chr (48 + n) else chr (87 + n).

(** One character of [repr(s)] when the surrounding quote is [q]. *)
Definition repr_char (q c : ascii) : string :=
  if Ascii.eqb c q || Ascii.eqb c backslash then String backslash (String c "")
  else if (ord c =? 9)%nat then "\t"
  else if (ord c =? 10)%nat then "\n"
  else if (ord c =? 13)%nat then "\r"
  else if isprintable c then String c ""
  else String backslash
         (String "x" (String (hex_digit (ord c / 16))
                        (String (hex_digit (ord c mod 16)) ""))).

Fixpoint repr_chars (q : ascii) (s : string) : string :=
  match s with
  | "" => ""
  | String c s' => repr_char q c ++ repr_chars q s'
  end.

(** [repr(s)] for a string: single quotes unless the string has a single
    quote and no double quote. *)
Definition str_repr (s : string) : string :=
  let q := if has_char squote s && negb (has_char dquote s)
           then dquote else squote in
  String q (repr_chars q s ++ String q "").

(** [str(n)] for an [int] within the limit on digits given below. *)
Definition int_str (n : Z) : string := NilZero.string_of_int (Z.to_int n).

(** Digits with a comma before every group of three counted from the right:
    [k] is the number of digits still to come, the head included. *)
Fixpoint group_digits (k : nat) (ds : string) : string :=
  match ds with
  | "" => ""
  | String d ds' =>
      match k with
      | 0 => ""
      | S k' =>
          String d (if ((0 <? k') && (k' mod 3 =? 0))%nat
                    then String "," (group_digits k' ds')
                    else group_digits k' ds')
      end
  end.

(** [format(n, ',')] for an [int]. *)
Definition int_grouped (n : Z) : string :=
  let ds := int_str (Z.abs n) in
  (if (n <? 0)%Z then "-" else "") ++ group_digits (String.length ds) ds.

(** CPython converts an [int] to decimal only up to 4300 digits, the sign
    apart ([sys.int_info.default_max_str_digits]); beyond that [str],
    [format] and f-strings raise [ValueError].  [int_str] and
    [int_grouped] are the conversions of the ints within that limit. *)
Definition max_str_digits : nat := 4300.

Definition str_digits_ok (n : Z) : bool :=
  (String.length (int_str (Z.abs n)) <=? max_str_digits)%nat.

(** ** Floats

    The binary64 arithmetic and its decimal renderings are the
    interpreter's; the programs below only pass floats through them.  They
    are taken as an interface. *)

Class PyFloat : Type := {
  pyfloat : Type;
  (** [x == 0.0] *)
  float_is_zero : pyfloat -> bool;
  (** [repr(x)], which is also [str(x)] and [format(x, '')] *)
  float_repr : pyfloat -> string;
  (** [format(x, '.Nf')] *)
  float_fixed : nat -> pyfloat -> string;
  (** [format(x, ',')] *)
  float_grouped : pyfloat -> string;
  (** [float(n)]; [None] stands for [OverflowError] *)
  float_of_int : Z -> option pyfloat;
  (** [n / d] on two ints, [d] not zero; [None] stands for [OverflowError] *)
  int_truediv : Z -> Z -> option pyfloat;
  (** [x / d] for a float [x] and an int [d], [d] not zero *)
  float_truediv : pyfloat -> Z -> pyfloat;
  (** [x == n] for a float [x] and an int [n] *)
  float_eq_int : pyfloat -> Z -> bool
}.

Section Values.
Context {F : PyFloat}.

(** ** JSON-like values *)

Inductive value : Type :=
| VNone
| VBool (b : bool)
| VInt (n : Z)
| VFloat (x : pyfloat)
| VStr (s : string)
| VList (items : list value)
| VDict (entries : list (string * value)).

(** [type(v).__name__] *)
Definition type_name (v : value) : string :=
  match v with
  | VNone => "NoneType"
  | VBool _ => "bool"
  | VInt _ => "int"
  | VFloat _ => "float"
  | VStr _ => "str"
  | VList _ => "list"
  | VDict _ => "dict"
  end.

(** [bool(v)] *)
Definition truthy (v : value) : bool :=
  match v with
  | VNone => false
  | VBool b => b
  | VInt n => negb (n =? 0)%Z
  | VFloat x => negb (float_is_zero x)
  | VStr s => negb (String.eqb s "")
  | VList l => match l with [] => false | _ => true end
  | VDict d => match d with [] => false | _ => true end
  end.

(** [repr(v)], for ints within the limit on digits and values nested
    less deeply than the interpreter's recursion limit. *)
Fixpoint py_repr (v : value) : string :=
  match v with
  | VNone => "None"
  | VBool b => if b then "True" else "False"
  | VInt n => int_str n
  | VFloat x => float_repr x
  | VStr s => str_repr s
  | VList l => "[" ++ join ", " (map py_repr l) ++ "]"
  | VDict d =>
      "{" ++ join ", "
               (map (fun kv : string * value => let (k, x) := kv in
                               str_repr k ++ ": " ++ py_repr x) d) ++ "}"
  end.

(** [str(v)], which is what [f"{v}"] inserts. *)
Definition py_str (v : value) : string :=
  match v with
  | VStr s => s
  | _ => py_repr v
  end.

(** The first binding of a key, as in a [dict] built from JSON. *)
Fixpoint dict_lookup (d : list (string * value)) (k : string) : option value :=
  match d with
  | [] => None
  | (k', v) :: d' => if String.eqb k' k then Some v else dict_lookup d' k
  end.

(** ** Exceptions

    [SpotifyException] is spotipy's, with its attributes; [PyError cls text]
    is any other instance of [Exception], [text] being [str(e)].  The texts
    of the interpreter's own errors are those of CPython 3.11. *)

Inductive exn : Type :=
| SpotifyException (http_status code msg reason : value)
| PyError (cls text : string).

(** [str(e)] *)
Definition exn_str (e : exn) : string :=
  match e with
  | SpotifyException http_status code msg reason =>
      "http status: " ++ py_str http_status ++ ", code: " ++ py_str code
      ++ " - " ++ py_str msg ++ ", reason: " ++ py_str reason
  | PyError _ text => text
  end.

Inductive outcome (A : Type) : Type :=
| Returns (a : A)
| Raises (e : exn).
Arguments Returns {A} a.
Arguments Raises {A} e.

Definition obind {A B} (m : outcome A) (k : A -> outcome B) : outcome B :=
  match m with
  | Returns a => k a
  | Raises e => Raises e
  end.

Fixpoint omap {A B} (f : A -> outcome B) (l : list A) : outcome (list B) :=
  match l with
  | [] => Returns []
  | a :: l' =>
      obind (f a) (fun b => obind (omap f l') (fun bs => Returns (b :: bs)))
  end.

Definition not_subscriptable (v : value) : exn :=
  PyError "TypeError" ("'" ++ type_name v ++ "' object is not subscriptable").

(** [v[k]] for a string key. *)
Definition getitem (v : value) (k : string) : outcome value :=
  match v with
  | VDict d =>
      match dict_lookup d k with
      | Some x => Returns x
      | None => Raises (PyError "KeyError" (str_repr k))
      end
  | VList _ =>
      Raises (PyError "TypeError"
                "list indices must be integers or slices, not str")
  | VStr _ =>
      Raises (PyError "TypeError" "string indices must be integers, not 'str'")
  | _ => Raises (not_subscriptable v)
  end.

(** [v[0]] *)
Definition getfirst (v : value) : outcome value :=
  match v with
  | VList (x :: _) => Returns x
  | VList [] => Raises (PyError "IndexError" "list index out of range")
  | VStr (String c _) => Returns (VStr (String c ""))
  | VStr "" => Raises (PyError "IndexError" "string index out of range")
  | VDict _ => Raises (PyError "KeyError" "0")
  | _ => Raises (not_subscriptable v)
  end.

Fixpoint take_chars (n : nat) (s : string) : string :=
  match n, s with
  | S n', String c s' => String c (take_chars n' s')
  | _, _ => ""
  end.

(** [v[:n]] *)
Definition slice_to (n : nat) (v : value) : outcome value :=
  match v with
  | VList l => Returns (VList (firstn n l))
  | VStr s => Returns (VStr (take_chars n s))
  | VDict _ => Raises (PyError "TypeError" "unhashable type: 'slice'")
  | _ => Raises (not_subscriptable v)
  end.

(** [v.get(k, default)] *)
Definition get_method (v : value) (k : string) (default : value)
  : outcome value :=
  match v with
  | VDict d =>
      match dict_lookup d k with
      | Some x => Returns x
      | None => Returns default
      end
  | _ =>
      Raises (PyError "AttributeError"
                ("'" ++ type_name v ++ "' object has no attribute 'get'"))
  end.

(** [list(v.keys())] *)
Definition keys_method (v : value) : outcome (list string) :=
  match v with
  | VDict d => Returns (map fst d)
  | _ =>
      Raises (PyError "AttributeError"
                ("'" ++ type_name v ++ "' object has no attribute 'keys'"))
  end.

Fixpoint chars (s : string) : list value :=
  match s with
  | "" => []
  | String c s' => VStr (String c "") :: chars s'
  end.

(** The elements a [for] loop or a comprehension sees. *)
Definition iterate (v : value) : outcome (list value) :=
  match v with
  | VList l => Returns l
  | VDict d => Returns (map (fun kv => VStr (fst kv)) d)
  | VStr s => Returns (chars s)
  | _ =>
      Raises (PyError "TypeError"
                ("'" ++ type_name v ++ "' object is not iterable"))
  end.

(** The items of [sep.join(...)] must be strings; [i] is the index of the
    head. *)
Fixpoint join_items (i : nat) (vs : list value) : outcome (list string) :=
  match vs with
  | [] => Returns []
  | VStr s :: vs' =>
      obind (join_items (S i) vs') (fun ss => Returns (s :: ss))
  | v :: _ =>
      Raises (PyError "TypeError"
                ("sequence item " ++ int_str (Z.of_nat i)
                 ++ ": expected str instance, " ++ type_name v ++ " found"))
  end.

(** [sep.join(vs)] on a list the program built itself. *)
Definition join_list (sep : string) (vs : list value) : outcome string :=
  obind (join_items 0 vs) (fun ss => Returns (join sep ss)).

(** [sep.join(v)] on any value. *)
Definition join_value (sep : string) (v : value) : outcome string :=
  match iterate v with
  | Returns vs => join_list sep vs
  | Raises _ => Raises (PyError "TypeError" "can only join an iterable")
  end.

Definition bad_format_spec (v : value) : exn :=
  PyError "TypeError"
    ("unsupported format string passed to " ++ type_name v ++ ".__format__").

Definition overflow : exn :=
  PyError "OverflowError" "int too large to convert to float".

(** [format(v, '.Nf')] *)
Definition format_fixed (n : nat) (v : value) : outcome string :=
  let of_int z :=
    match float_of_int z with
    | Some x => Returns (float_fixed n x)
    | None => Raises overflow
    end in
  match v with
  | VFloat x => Returns (float_fixed n x)
  | VInt z => of_int z
  | VBool b => of_int (if b then 1 else 0)%Z
  | VStr _ =>
      Raises (PyError "ValueError"
                "Unknown format code 'f' for object of type 'str'")
  | _ => Raises (bad_format_spec v)
  end.

(** [format(v, ',')] *)
Definition format_grouped (v : value) : outcome string :=
  match v with
  | VFloat x => Returns (float_grouped x)
  | VInt z => Returns (int_grouped z)
  | VBool b => Returns (int_grouped (if b then 1 else 0))
  | VStr _ => Raises (PyError "ValueError" "Cannot specify ',' with 's'.")
  | _ => Raises (bad_format_spec v)
  end.

(** [v / d] for an int literal [d] other than zero. *)
Definition truediv (v : value) (d : Z) : outcome value :=
  let of_opt o :=
    match o with
    | Some x => Returns (VFloat x)
    | None =>
        Raises (PyError "OverflowError"
                  "integer division result too large for a float")
    end in
  match v with
  | VFloat x => Returns (VFloat (float_truediv x d))
  | VInt z => of_opt (int_truediv z d)
  | VBool b => of_opt (int_truediv (if b then 1 else 0) d)
  | _ =>
      Raises (PyError "TypeError"
                ("unsupported operand type(s) for /: '" ++ type_name v
                 ++ "' and 'int'"))
  end.

(** [v == n] for an int literal [n]. *)
Definition eq_int (v : value) (n : Z) : bool :=
  match v with
  | VInt z => (z =? n)%Z
  | VBool b => ((if b then 1 else 0) =? n)%Z
  | VFloat x => float_eq_int x n
  | _ => false
  end.

(** ** Programs that call out

    A program either returns, raises, or issues a call [c] to the outside
    and goes on with what the outside answers: a result of the type the
    call announces, or an exception. *)

Section Prog.
Variable C : Type -> Type.

Inductive prog (A : Type) : Type :=
| Ret (a : A)
| Throw (e : exn)
| Call (R : Type) (c : C R) (k : outcome R -> prog A).
Arguments Ret {A} a.
Arguments Throw {A} e.
Arguments Call {A R} c k.

Fixpoint bind {A B} (m : prog A) (k : A -> prog B) : prog B :=
  match m with
  | Ret a => k a
  | Throw e => Throw e
  | Call c k' => Call c (fun o => bind (k' o) k)
  end.

(** A computation that calls nothing. *)
Definition pure {A} (o : outcome A) : prog A :=
  match o with
  | Returns a => Ret a
  | Raises e => Throw e
  end.

(** [result = outside(c)] *)
Definition call {R} (c : C R) : prog R := Call c pure.

(** [try: m  except Exception as e: h e] *)
Fixpoint catch {A} (m : prog A) (h : exn -> prog A) : prog A :=
  match m with
  | Ret a => Ret a
  | Throw e => h e
  | Call c k => Call c (fun o => catch (k o) h)
  end.

(** What is done on the way out of an [async with] block, whichever way
    its body ended; an exception raised on the way out takes the place of
    the body's result. *)
Fixpoint leaving {A} (exit : C unit) (body : prog A) : prog A :=
  match body with
  | Ret a =>
      Call exit (fun o => match o with
                          | Returns _ => Ret a
                          | Raises e' => Throw e'
                          end)
  | Throw e =>
      Call exit (fun o => match o with
                          | Returns _ => Throw e
                          | Raises e' => Throw e'
                          end)
  | Call c k => Call c (fun o => leaving exit (k o))
  end.

(** [async with ...: body], for a context manager that is entered by
    [enter], left by [exit] and swallows no exception. *)
Definition async_with {A} (enter exit : C unit) (body : prog A) : prog A :=
  Call enter (fun o => match o with
                       | Returns _ => leaving exit body
                       | Raises e => Throw e
                       end).

(** One call and its answer. *)
Inductive event : Type :=
| Event (R : Type) (c : C R) (o : outcome R).
Arguments Event {R} c o.

(** The exception an event ended with, if it did. *)
Definition raised (ev : event) : option exn :=
  match ev with
  | Event _ (Raises e) => Some e
  | Event _ (Returns _) => None
  end.

(** The exception of the last event that ended with one. *)
Definition last_raised (tr : list event) : option exn :=
  fold_left (fun acc ev => match raised ev with
                           | Some e => Some e
                           | None => acc
                           end) tr None.

(** Running a program against an outside that answers every call: the
    calls made, in order, and the result. *)
Fixpoint trace {A} (answer : forall R, C R -> outcome R) (p : prog A)
  : list event :=
  match p with
  | Ret _ | Throw _ => []
  | Call c k => Event c (answer _ c) :: trace answer (k (answer _ c))
  end.

Fixpoint result {A} (answer : forall R, C R -> outcome R) (p : prog A)
  : outcome A :=
  match p with
  | Ret a => Returns a
  | Throw e => Raises e
  | Call c k => result answer (k (answer _ c))
  end.

Definition run {A} (answer : forall R, C R -> outcome R) (p : prog A)
  : list event * outcome A :=
  (trace answer p, result answer p).

(** No exception the outside answers with is caught inside [p]: the call
    that raises is where the program ends, with that exception. *)
Definition propagates {A} (answer : forall R, C R -> outcome R) (p : prog A)
  : Prop :=
  forall ev e,
    In ev (trace answer p) -> raised ev = Some e -> result answer p = Raises e.

End Prog.

End Values.

Arguments Returns {F A} a.
Arguments Raises {F A} e.
Arguments Ret {F C A} a.
Arguments Throw {F C A} e.
Arguments Call {F C A R} c k.
Arguments call {F C R} c.
Arguments pure {F C A} o.
Arguments Event {F C R} c o.
Arguments async_with {F C A} enter exit body.
Arguments last_raised {F C} tr.

End Py.

Import Py.

Notation "x <~ m ;; k" := (obind m (fun x => k))
  (at level 61, m at next level, right associativity).
Notation "x <- m ;; k" := (bind m (fun x => k))
  (at level 61, m at next level, right associativity).

(* ================================================================== *)
(** * The tool server: [spotify_mcp_server.py] *)
(* ================================================================== *)

Module Server.

Section Tools.
Context {F : PyFloat}.

(** The methods of the module-level spotipy client [sp] that the tools call,
    with the arguments they pass. *)
Inductive api_call : Type -> Type :=
| sp_search (q type : string) (limit : Z) : api_call value
| sp_artist (artist_id : value) : api_call value
| sp_artist_top_tracks (artist_id : value) : api_call value
| sp_audio_features (tracks : string) : api_call value
| sp_track (track_id : string) : api_call value
| sp_recommendations (seed_tracks : list string) (limit : Z) : api_call value.

(** A tool body: it calls [sp] and gets JSON-like values back. *)
Definition tool (A : Type) : Type := prog api_call A.

(** The two handlers every tool ends with:
    [except SpotifyException as e] and [except Exception as e]. *)
Definition on_error (e : exn) : string :=
  match e with
  | SpotifyException http_status _ msg _ =>
      "Spotify API error: " ++ py_str msg
      ++ " (Status: " ++ py_str http_status ++ ")"
  | PyError _ _ => "Unexpected error: " ++ exn_str e
  end.

Definition try_tool (body : tool string) : tool string :=
  catch body (fun e => Ret (on_error e)).

(** [not results or not results.get(section) or
     not results[section]["items"]] *)
Definition no_items (section : string) (results : value) : outcome bool :=
  if negb (truthy results) then Returns true
  else
    found <~ get_method results section VNone ;;
    if negb (truthy found) then Returns true
    else
      sec <~ getitem results section ;;
      items <~ getitem sec "items" ;;
      Returns (negb (truthy items)).

(** [[artist['name'] for artist in v]] *)
Definition artist_names (v : value) : outcome (list value) :=
  artists <~ iterate v ;;
  omap (fun artist => getitem artist "name") artists.

(** The [track_info] dict of [search_tracks]. *)
Record track_info : Type := {
  ti_name : value;
  ti_artist : string;
  ti_album : value;
  ti_uri : value;
  ti_id : value;
  ti_preview_url : value
}.

Definition make_track_info (item : value) : outcome track_info :=
  name <~ getitem item "name" ;;
  artists <~ getitem item "artists" ;;
  names <~ artist_names artists ;;
  artist <~ join_list ", " names ;;
  album <~ getitem item "album" ;;
  album_name <~ getitem album "name" ;;
  uri <~ getitem item "uri" ;;
  id <~ getitem item "id" ;;
  preview_url <~ get_method item "preview_url" (VStr "N/A") ;;
  Returns {| ti_name := name; ti_artist := artist; ti_album := album_name;
             ti_uri := uri; ti_id := id; ti_preview_url := preview_url |}.

Definition nat_str (n : nat) : string := int_str (Z.of_nat n).

(** The five lines [search_tracks] appends for entry [i]. *)
Definition track_lines (i : nat) (t : track_info) : string :=
  nat_str i ++ ". " ++ py_str (ti_name t) ++ " by " ++ ti_artist t ++ nl
  ++ "   Album: " ++ py_str (ti_album t) ++ nl
  ++ "   Track ID: " ++ py_str (ti_id t) ++ nl
  ++ "   URI: " ++ py_str (ti_uri t) ++ nl
  ++ "   Preview: " ++ py_str (ti_preview_url t) ++ nl ++ nl.

(** [for i, track in enumerate(tracks, i): output += ...] *)
Fixpoint append_tracks (output : string) (i : nat) (tracks : list track_info)
  : string :=
  match tracks with
  | [] => output
  | t :: rest => append_tracks (output ++ track_lines i t) (S i) rest
  end.

Definition search_tracks (query : string) (limit : Z) : tool string :=
  try_tool (
    results <- call (sp_search query "track" (Z.min limit 50)) ;;
    empty <- pure (no_items "tracks" results) ;;
    if (empty : bool) then
      Ret ("No results found for track name: '" ++ query ++ "'")
    else
      tracks <- pure (sec <~ getitem results "tracks" ;;
                      items <~ getitem sec "items" ;;
                      items <~ iterate items ;;
                      omap make_track_info items) ;;
      Ret (append_tracks
             ("Found " ++ nat_str (List.length tracks) ++ " tracks:" ++ nl ++ nl)
             1 tracks)).

(** [for i, track in enumerate(..., i): output += f"{i}. ..."] of
    [get_artist_info]. *)
Fixpoint append_top_tracks (output : string) (i : nat) (tracks : list value)
  : outcome string :=
  match tracks with
  | [] => Returns output
  | t :: rest =>
      name <~ getitem t "name" ;;
      album <~ getitem t "album" ;;
      album_name <~ getitem album "name" ;;
      append_top_tracks
        (output ++ nat_str i ++ ". " ++ py_str name ++ " - "
         ++ py_str album_name ++ nl)
        (S i) rest
  end.

(** The report [get_artist_info] builds once both lookups have answered. *)
Definition artist_report (artist_details top_tracks : value) : outcome string :=
  name <~ getitem artist_details "name" ;;
  let output := "Artist: " ++ py_str name ++ nl in
  popularity <~ getitem artist_details "popularity" ;;
  let output := output ++ "Popularity: " ++ py_str popularity ++ "/100" ++ nl in
  followers <~ getitem artist_details "followers" ;;
  total <~ getitem followers "total" ;;
  total <~ format_grouped total ;;
  let output := output ++ "Followers: " ++ total ++ nl in
  genres <~ getitem artist_details "genres" ;;
  genres <~ (if truthy genres
             then genres <~ getitem artist_details "genres" ;;
                  join_value ", " genres
             else Returns "N/A") ;;
  let output := output ++ "Genres: " ++ genres ++ nl in
  uri <~ getitem artist_details "uri" ;;
  let output := output ++ "Spotify URI: " ++ py_str uri ++ nl ++ nl in
  let output := output ++ "Top Tracks:" ++ nl in
  tracks <~ getitem top_tracks "tracks" ;;
  first5 <~ slice_to 5 tracks ;;
  first5 <~ iterate first5 ;;
  append_top_tracks output 1 first5.

Definition get_artist_info (artist_name : string) : tool string :=
  try_tool (
    results <- call (sp_search artist_name "artist" 1) ;;
    empty <- pure (no_items "artists" results) ;;
    if (empty : bool) then
      Ret ("No artist found with name: '" ++ artist_name ++ "'")
    else
      artist_id <- pure (sec <~ getitem results "artists" ;;
                         items <~ getitem sec "items" ;;
                         artist <~ getfirst items ;;
                         getitem artist "id") ;;
      artist_details <- call (sp_artist artist_id) ;;
      if negb (truthy artist_details) then
        Ret ("Could not retrieve details for artist: '" ++ artist_name ++ "'")
      else
        top_tracks <- call (sp_artist_top_tracks artist_id) ;;
        missing <- pure (if negb (truthy top_tracks) then Returns true
                         else tracks <~ get_method top_tracks "tracks" VNone ;;
                              Returns (negb (truthy tracks))) ;;
        if (missing : bool) then
          Ret ("Could not retrieve top tracks for artist: '"
               ++ artist_name ++ "'")
        else
          pure (artist_report artist_details top_tracks)).

(** [f"...{features[key]:.Nf}..."] *)
Definition feature_fixed (n : nat) (features : value) (key : string)
  : outcome string :=
  x <~ getitem features key ;;
  format_fixed n x.

(** The report [get_audio_features] builds once both lookups have answered. *)
Definition features_report (features track : value) : outcome string :=
  name <~ getitem track "name" ;;
  artists <~ getitem track "artists" ;;
  artist <~ getfirst artists ;;
  artist_name <~ getitem artist "name" ;;
  let output := "Audio Features for: " ++ py_str name ++ " by "
                ++ py_str artist_name ++ nl ++ nl in
  tempo <~ feature_fixed 1 features "tempo" ;;
  let output := output ++ "Tempo: " ++ tempo ++ " BPM" ++ nl in
  key <~ getitem features "key" ;;
  let output := output ++ "Key: " ++ py_str key
                ++ " (0=C, 1=C#, 2=D, etc.)" ++ nl in
  mode <~ getitem features "mode" ;;
  let output := output ++ "Mode: "
                ++ (if eq_int mode 1 then "Major" else "Minor") ++ nl in
  time_signature <~ getitem features "time_signature" ;;
  let output := output ++ "Time Signature: " ++ py_str time_signature
                ++ "/4" ++ nl in
  duration_ms <~ getitem features "duration_ms" ;;
  seconds <~ truediv duration_ms 1000 ;;
  seconds <~ format_fixed 1 seconds ;;
  let output := output ++ "Duration: " ++ seconds ++ " seconds" ++ nl ++ nl in
  let output := output ++ "Musical Characteristics (0.0 to 1.0):" ++ nl in
  x <~ feature_fixed 2 features "danceability" ;;
  let output := output ++ "  Danceability: " ++ x ++ nl in
  x <~ feature_fixed 2 features "energy" ;;
  let output := output ++ "  Energy: " ++ x ++ nl in
  x <~ feature_fixed 2 features "speechiness" ;;
  let output := output ++ "  Speechiness: " ++ x ++ nl in
  x <~ feature_fixed 2 features "acousticness" ;;
  let output := output ++ "  Acousticness: " ++ x ++ nl in
  x <~ feature_fixed 2 features "instrumentalness" ;;
  let output := output ++ "  Instrumentalness: " ++ x ++ nl in
  x <~ feature_fixed 2 features "liveness" ;;
  let output := output ++ "  Liveness: " ++ x ++ nl in
  x <~ feature_fixed 2 features "valence" ;;
  let output := output ++ "  Valence (positivity): " ++ x ++ nl in
  x <~ feature_fixed 1 features "loudness" ;;
  let output := output ++ "  Loudness: " ++ x ++ " dB" ++ nl in
  Returns output.

Definition get_audio_features (track_id : string) : tool string :=
  try_tool (
    features_response <- call (sp_audio_features track_id) ;;
    empty <- pure (if negb (truthy features_response) then Returns true
                   else first <~ getfirst features_response ;;
                        Returns (negb (truthy first))) ;;
    if (empty : bool) then
      Ret ("No audio features found for track ID: '" ++ track_id ++ "'")
    else
      features <- pure (getfirst features_response) ;;
      track <- call (sp_track track_id) ;;
      if negb (truthy track) then
        Ret ("Could not retrieve track information for ID: '"
             ++ track_id ++ "'")
      else
        pure (features_report features track)).

(** [[tid.strip() for tid in seed_track_ids.split(',')][:5]] *)
Definition parse_track_ids (seed_track_ids : string) : list string :=
  firstn 5 (map strip (split "," seed_track_ids)).

(** The loop of [get_recommendations]. *)
Fixpoint append_recommendations (output : string) (i : nat)
  (tracks : list value) : outcome string :=
  match tracks with
  | [] => Returns output
  | t :: rest =>
      name <~ getitem t "name" ;;
      artists <~ getitem t "artists" ;;
      names <~ artist_names artists ;;
      artist <~ join_list ", " names ;;
      let output := output ++ nat_str i ++ ". " ++ py_str name ++ " by "
                    ++ artist ++ nl in
      album <~ getitem t "album" ;;
      album_name <~ getitem album "name" ;;
      let output := output ++ "   Album: " ++ py_str album_name ++ nl in
      id <~ getitem t "id" ;;
      let output := output ++ "   Track ID: " ++ py_str id ++ nl in
      popularity <~ getitem t "popularity" ;;
      let output := output ++ "   Popularity: " ++ py_str popularity
                    ++ "/100" ++ nl ++ nl in
      append_recommendations output (S i) rest
  end.

Definition get_recommendations (seed_track_ids : string) (limit : Z)
  : tool string :=
  try_tool (
    let track_ids := parse_track_ids seed_track_ids in
    match track_ids with
    | [] => Ret "Please provide at least one track ID"
    | _ =>
        results <- call (sp_recommendations track_ids (Z.min limit 100)) ;;
        empty <- pure (if negb (truthy results) then Returns true
                       else tracks <~ getitem results "tracks" ;;
                            Returns (negb (truthy tracks))) ;;
        if (empty : bool) then
          Ret "No recommendations found for the given tracks"
        else
          pure (tracks <~ getitem results "tracks" ;;
                tracks <~ iterate tracks ;;
                append_recommendations
                  ("Recommendations based on "
                   ++ nat_str (List.length track_ids) ++ " seed track(s):"
                   ++ nl ++ nl)
                  1 tracks)
    end).

(** The tools [@mcp.tool()] registers, with the arguments of one request. *)
Inductive request : Type :=
| SearchTracks (query : string) (limit : Z)
| GetArtistInfo (artist_name : string)
| GetAudioFeatures (track_id : string)
| GetRecommendations (seed_track_ids : string) (limit : Z).

Definition serve (r : request) : tool string :=
  match r with
  | SearchTracks query limit => search_tracks query limit
  | GetArtistInfo artist_name => get_artist_info artist_name
  | GetAudioFeatures track_id => get_audio_features track_id
  | GetRecommendations seed_track_ids limit =>
      get_recommendations seed_track_ids limit
  end.

(** ** Answers the tools take for empty

    The answers that fail the test a tool makes before it goes on, call by
    call, as a condition on the answer alone: the answer is falsy, or the
    section that should hold the results is (missing too, where the tool
    reads it with [.get]), or its item list is. *)

(** A [search] answer; [section] is the key of the searched type. *)
Definition empty_search (section : string) (r : value) : bool :=
  negb (truthy r)
  || match r with
     | VDict d =>
         match dict_lookup d section with
         | None => true
         | Some sec =>
             negb (truthy sec)
             || match sec with
                | VDict sd =>
                    match dict_lookup sd "items" with
                    | Some items => negb (truthy items)
                    | None => false
                    end
                | _ => false
                end
         end
     | _ => false
     end.

(** An answer with a ["tracks"] entry that is null or empty; [lenient]
    says whether a missing entry counts too. *)
Definition empty_tracks (lenient : bool) (r : value) : bool :=
  negb (truthy r)
  || match r with
     | VDict d =>
         match dict_lookup d "tracks" with
         | Some tracks => negb (truthy tracks)
         | None => lenient
         end
     | _ => false
     end.

(** An [audio_features] answer: nothing, or a list that starts with
    nothing. *)
Definition empty_features (r : value) : bool :=
  negb (truthy r)
  || match r with
     | VList (first :: _) => negb (truthy first)
     | _ => false
     end.

Definition empty_answer {R} (c : api_call R) : R -> bool :=
  match c in api_call R return R -> bool with
  | sp_search _ type _ => empty_search (type ++ "s")
  | sp_artist _ => fun r => negb (truthy r)
  | sp_artist_top_tracks _ => empty_tracks true
  | sp_audio_features _ => empty_features
  | sp_track _ => fun r => negb (truthy r)
  | sp_recommendations _ _ => empty_tracks false
  end.

(** The call of this event was answered, with no result. *)
Definition came_back_empty (ev : event api_call) : bool :=
  match ev with
  | Event c (Returns r) => empty_answer c r
  | Event _ (Raises _) => false
  end.

(** The wordings by which the tools say that nothing was found. *)
Definition says_not_found (s : string) : bool :=
  existsb (fun w => contains w s)
    ["No results"; "No artist found"; "No audio features found";
     "No recommendations found"; "Could not retrieve"].

(** ** A stubbed search answer *)

(** A track of a search answer, with the entries [search_tracks] reads. *)
Definition track_json (name : string) (artists : list string)
  (album id uri : string) (preview_url : value) : value :=
  VDict [ ("album", VDict [("name", VStr album)]);
          ("artists", VList (map (fun a => VDict [("name", VStr a)]) artists));
          ("id", VStr id);
          ("name", VStr name);
          ("preview_url", preview_url);
          ("uri", VStr uri) ].

Definition search_json (section : string) (items : list value) : value :=
  VDict [(section, VDict [("items", VList items)])].

(** ** Well-formed answers

    The answers of the Spotify API as its documentation gives them, built
    from their data, and the lines the tools write for them. *)

(** A track of a search answer; [td_preview] is [None] when the answer
    has no ["preview_url"] entry for it. *)
Record track_data : Type := {
  td_name : string;
  td_artists : list string;
  td_album : string;
  td_id : string;
  td_uri : string;
  td_preview : option value
}.

Definition artists_json (artists : list string) : value :=
  VList (map (fun a => VDict [("name", VStr a)]) artists).

Definition track_data_json (t : track_data) : value :=
  VDict ([ ("album", VDict [("name", VStr (td_album t))]);
           ("artists", artists_json (td_artists t));
           ("id", VStr (td_id t));
           ("name", VStr (td_name t)) ]
         ++ match td_preview t with
            | Some v => [("preview_url", v)]
            | None => []
            end
         ++ [("uri", VStr (td_uri t))])%list.

(** What [search_tracks] keeps of such a track. *)
Definition track_data_info (t : track_data) : track_info :=
  {| ti_name := VStr (td_name t);
     ti_artist := join ", " (td_artists t);
     ti_album := VStr (td_album t);
     ti_uri := VStr (td_uri t);
     ti_id := VStr (td_id t);
     ti_preview_url := match td_preview t with
                       | Some v => v
                       | None => VStr "N/A"
                       end |}.

(** The entries of a listing, numbered from [i]. *)
Fixpoint numbered_tracks (i : nat) (tracks : list track_info) : string :=
  match tracks with
  | [] => ""
  | t :: rest => track_lines i t ++ numbered_tracks (S i) rest
  end.

(** An artist: the hit of the search, and the answer of the lookup. *)
Record artist_data : Type := {
  ad_id : string;
  ad_name : string;
  ad_popularity : Z;
  ad_followers : Z;
  ad_genres : list string;
  ad_uri : string
}.

Definition artist_hit_json (a : artist_data) : value :=
  VDict [("id", VStr (ad_id a)); ("name", VStr (ad_name a))].

Definition artist_json (a : artist_data) : value :=
  VDict [ ("followers", VDict [("total", VInt (ad_followers a))]);
          ("genres", VList (map VStr (ad_genres a)));
          ("id", VStr (ad_id a));
          ("name", VStr (ad_name a));
          ("popularity", VInt (ad_popularity a));
          ("uri", VStr (ad_uri a)) ].

(** A top track, by its name and the name of its album. *)
Definition top_track_json (t : string * string) : value :=
  VDict [("album", VDict [("name", VStr (snd t))]); ("name", VStr (fst t))].

Definition top_tracks_json (tracks : list (string * string)) : value :=
  VDict [("tracks", VList (map top_track_json tracks))].

Fixpoint numbered_top_tracks (i : nat) (tracks : list (string * string))
  : string :=
  match tracks with
  | [] => ""
  | t :: rest =>
      nat_str i ++ ". " ++ fst t ++ " - " ++ snd t ++ nl
      ++ numbered_top_tracks (S i) rest
  end.

(** The report of [get_artist_info] for an artist and top tracks. *)
Definition artist_text (a : artist_data) (tracks : list (string * string))
  : string :=
  "Artist: " ++ ad_name a ++ nl
  ++ "Popularity: " ++ int_str (ad_popularity a) ++ "/100" ++ nl
  ++ "Followers: " ++ int_grouped (ad_followers a) ++ nl
  ++ "Genres: " ++ match ad_genres a with
                   | [] => "N/A"
                   | _ => join ", " (ad_genres a)
                   end ++ nl
  ++ "Spotify URI: " ++ ad_uri a ++ nl ++ nl
  ++ "Top Tracks:" ++ nl
  ++ numbered_top_tracks 1 (firstn 5 tracks).

(** A recommended track. *)
Record recommended : Type := {
  rc_name : string;
  rc_artists : list string;
  rc_album : string;
  rc_id : string;
  rc_popularity : Z
}.

Definition recommended_json (t : recommended) : value :=
  VDict [ ("album", VDict [("name", VStr (rc_album t))]);
          ("artists", artists_json (rc_artists t));
          ("id", VStr (rc_id t));
          ("name", VStr (rc_name t));
          ("popularity", VInt (rc_popularity t)) ].

Definition recommendations_json (tracks : list recommended) : value :=
  VDict [("seeds", VList []); ("tracks", VList (map recommended_json tracks))].

Fixpoint numbered_recommendations (i : nat) (tracks : list recommended)
  : string :=
  match tracks with
  | [] => ""
  | t :: rest =>
      nat_str i ++ ". " ++ rc_name t ++ " by " ++ join ", " (rc_artists t)
      ++ nl
      ++ "   Album: " ++ rc_album t ++ nl
      ++ "   Track ID: " ++ rc_id t ++ nl
      ++ "   Popularity: " ++ int_str (rc_popularity t) ++ "/100" ++ nl ++ nl
      ++ numbered_recommendations (S i) rest
  end.

(** The answered calls of a run but the last: after each of them the tool
    went on. *)
Definition went_on (ev : event api_call) : bool :=
  match raised ev with
  | Some _ => false
  | None => negb (came_back_empty ev)
  end.

(** ** Answers without a result set

    An empty or absent result set, by the data alone and in the same way
    for every call: the answer, the entry that should hold the results or
    (for a search) its item list is null, an empty list or an empty
    object, or the entry is not there at all. *)








(** A preview entry as the API gives it: none, [null] or a URL. *)
Definition plain_preview (preview : option value) : bool :=
  match preview with
  | None | Some VNone | Some (VStr _) => true
  | Some _ => false
  end.

(** ** Seed ids as they are written

    One of the comma-separated pieces of [seed_track_ids]: an id with
    white space before and after it. *)
Record padded_id : Type := {
  pad_before : string;
  seed_id : string;
  pad_after : string
}.

Definition glue (p : padded_id) : string :=
  pad_before p ++ seed_id p ++ pad_after p.

(** The pads are white space, and the id has no white space at its ends
    and no comma. *)
Definition well_padded (p : padded_id) : bool :=
  all_chars isspace (pad_before p) && all_chars isspace (pad_after p)
  && trimmed (seed_id p) && negb (has_char "," (seed_id p)).

End Tools.

End Server.

(* ================================================================== *)
(** * The client: [spotify_langchain_client.py] *)
(* ================================================================== *)

Module Client.

(** What the client takes from pydantic and the MCP SDK without looking
    inside: the content items of a tool result with their [str()], and the
    text of a [ValidationError] for a model and its (field, message) list. *)
Class Libraries : Type := {
  content_item : Type;
  item_str : content_item -> string;
  validation_error_str : string -> list (string * string) -> string
}.

(** A keyword argument of a model's constructor: left out, or given. *)
Inductive arg (A : Type) : Type :=
| Omitted
| Given (a : A).
Arguments Omitted {A}.
Arguments Given {A} a.

Section Validation.
Context {F : PyFloat} {L : Libraries}.

Definition ValidationError (model : string) (errors : list (string * string))
  : exn :=
  PyError "ValidationError" (validation_error_str model errors).

(** The entry pydantic reports for a field whose validator raised. *)
Definition field_errors {A} (field : string) (o : outcome A)
  : list (string * string) :=
  match o with
  | Returns _ => []
  | Raises e => [(field, "Value error, " ++ exn_str e)]
  end.

(** A [str | None] as a value. *)
Definition opt_value (v : option string) : value :=
  match v with
  | Some s => VStr s
  | None => VNone
  end.

(** [v or default] for a [str | None] *)
Definition str_or (v : option string) (default : string) : string :=
  if truthy (opt_value v) then py_str (opt_value v) else default.

End Validation.

(** ** [class MCPToolSchema(BaseModel)] *)
Module MCPToolSchema.
Section Model.
Context {F : PyFloat} {L : Libraries}.

Record t : Type := {
  name : string;
  description : option string;
  input_schema : list (string * value)
}.

Definition validate_tool_name (v : string) : outcome string :=
  if negb (isalnum (remove_char "-" (remove_char "_" v))) then
    Raises (PyError "ValueError"
              ("Tool name must be alphanumeric with underscores/hyphens: "
               ++ v))
  else Returns v.

(** [MCPToolSchema(name=..., description=..., input_schema=...)]:
    [Field(min_length=1)] on the name, then its validator. *)
Definition new (name : string) (description : option string)
  (input_schema : list (string * value)) : outcome t :=
  if (String.length name <? 1)%nat then
    Raises (ValidationError "MCPToolSchema"
              [("name", "String should have at least 1 character")])
  else
    match validate_tool_name name with
    | Returns v =>
        Returns {| name := v; description := description;
                   input_schema := input_schema |}
    | Raises e =>
        Raises (ValidationError "MCPToolSchema"
                  (field_errors "name" (validate_tool_name name)))
    end.

End Model.
End MCPToolSchema.

(** ** [class MCPToolCall(BaseModel)] *)
Module MCPToolCall.
Section Model.
Context {F : PyFloat} {L : Libraries}.

Record t : Type := {
  tool_name : string;
  arguments : list (string * value)
}.

Definition validate_tool_name (v : string) : outcome string :=
  if String.eqb v "" || String.eqb (strip v) "" then
    Raises (PyError "ValueError" "Tool name cannot be empty")
  else Returns v.

(** [MCPToolCall(tool_name=..., arguments=...)] *)
Definition new (tool_name : string) (arguments : arg (list (string * value)))
  : outcome t :=
  match validate_tool_name tool_name with
  | Returns v =>
      Returns {| tool_name := v;
                 arguments := match arguments with
                              | Given d => d
                              | Omitted => []
                              end |}
  | Raises e =>
      Raises (ValidationError "MCPToolCall"
                (field_errors "tool_name" (validate_tool_name tool_name)))
  end.

End Model.
End MCPToolCall.

(** ** [class MCPToolResponse(BaseModel)] *)
Module MCPToolResponse.
Section Model.
Context {F : PyFloat} {L : Libraries}.

Record t : Type := {
  success : bool;
  content : option string;
  error : option string
}.

(** [not v] for a [str | None] *)
Definition blank (v : option string) : bool := negb (truthy (opt_value v)).

(** The validator of the fields [content] and [error]; [data] is
    [info.data], the fields validated before this one. *)
Definition validate_content_or_error (v : option string)
  (data : list (string * value)) (field_name : string)
  : outcome (option string) :=
  let values := VDict data in
  let success := match get_method values "success" VNone with
                 | Returns x => truthy x
                 | Raises _ => false
                 end in
  if success && blank v && String.eqb field_name "content" then
    Raises (PyError "ValueError" "Successful response must have content")
  else if negb success && blank v && String.eqb field_name "error" then
    Raises (PyError "ValueError" "Failed response must have error message")
  else Returns v.

(** A field in its turn: a value that is given goes through the validator,
    a field left out takes its default [None] and is not validated. *)
Definition field (v : arg (option string)) (data : list (string * value))
  (field_name : string) : outcome (option string) :=
  match v with
  | Given x => validate_content_or_error x data field_name
  | Omitted => Returns None
  end.

(** [MCPToolResponse(success=..., content=..., error=...)]: the fields are
    validated in the order they are declared, each seeing the ones before
    it, and every failure is reported. *)
Definition new (success : arg bool) (content error : arg (option string))
  : outcome t :=
  let success := match success with Given b => b | Omitted => true end in
  let data := [("success", VBool success)] in
  let r_content := field content data "content" in
  let data := match r_content with
              | Returns c => (data ++ [("content", opt_value c)])%list
              | Raises _ => data
              end in
  let r_error := field error data "error" in
  match r_content, r_error with
  | Returns c, Returns e =>
      Returns {| success := success; content := c; error := e |}
  | _, _ =>
      Raises (ValidationError "MCPToolResponse"
                (field_errors "content" r_content
                 ++ field_errors "error" r_error)%list)
  end.

End Model.
End MCPToolResponse.

(** ** The pre-defined argument schemas

    The five [...Args] classes are pydantic models LangChain checks the
    agent's arguments against; the client itself only looks them up. *)
Inductive args_schema : Type :=
| SpotifySearchArgs
| SpotifyPlaylistArgs
| SpotifyPlaybackArgs
| SpotifyGetInfoArgs
| SpotifyQueueArgs.

Definition TOOL_SCHEMAS : list (string * args_schema) :=
  [ ("SpotifySearch", SpotifySearchArgs);
    ("SpotifyPlaylist", SpotifyPlaylistArgs);
    ("SpotifyPlayback", SpotifyPlaybackArgs);
    ("SpotifyGetInfo", SpotifyGetInfoArgs);
    ("SpotifyQueue", SpotifyQueueArgs) ].

(** [d.get(k)] on a dict with string keys. *)
Fixpoint dict_get {V} (d : list (string * V)) (k : string) : option V :=
  match d with
  | [] => None
  | (k', v) :: d' => if String.eqb k' k then Some v else dict_get d' k
  end.

(** [class MCPServerConfig(BaseModel)], once validated. *)
Module MCPServerConfig.
Record t : Type := {
  server_path : string;
  command : string
}.
End MCPServerConfig.

Record StdioServerParameters : Type := {
  command : string;
  args : list string;
  env : list (string * string)
}.

Section Session.
Context {F : PyFloat} {L : Libraries}.

(** A tool as the server declares it ([mcp.types.Tool]). *)
Record Tool : Type := {
  name : string;
  description : option string;
  inputSchema : list (string * value)
}.

(** The result of [session.call_tool]. *)
Record CallToolResult : Type := {
  content : list content_item
}.

(** What the client asks of the MCP SDK: entering and leaving the two
    [async with] blocks, and the three requests of a session. *)
Inductive session_call : Type -> Type :=
| stdio_client (server_params : StdioServerParameters) : session_call unit
| stdio_client_exit : session_call unit
| ClientSession : session_call unit
| ClientSession_exit : session_call unit
| initialize : session_call unit
| list_tools : session_call (list Tool)
| call_tool (name : string) (arguments : list (string * value))
  : session_call (option CallToolResult).

Definition client (A : Type) : Type := prog session_call A.

(** [async with stdio_client(params) as (r, w):
       async with ClientSession(r, w) as session:
         await session.initialize(); body] *)
Definition with_session {A} (server_params : StdioServerParameters)
  (body : client A) : client A :=
  async_with (stdio_client server_params) stdio_client_exit
    (async_with ClientSession ClientSession_exit
       (_ <- call initialize ;; body)).

Definition call_mcp_tool (tool_call : MCPToolCall.t)
  (server_params : StdioServerParameters) : client MCPToolResponse.t :=
  catch
    (with_session server_params
       (result <- call (call_tool (MCPToolCall.tool_name tool_call)
                                  (MCPToolCall.arguments tool_call)) ;;
        match result with
        | Some {| content := item :: _ |} =>
            let content := item_str item in
            (* [content] is a [str] by now: it has no attribute [text] and
               no attribute [data], so of the three branches the last one
               runs, [content = str(content)]. *)
            let content := content in
            pure (MCPToolResponse.new (Given true) (Given (Some content))
                    Omitted)
        | _ =>
            pure (MCPToolResponse.new (Given false) Omitted
                    (Given (Some "No content in response")))
        end))
    (fun e =>
       pure (MCPToolResponse.new (Given false) Omitted
               (Given (Some (exn_str e))))).

(** The coroutine [make_tool_function(tool_name, params)] returns. *)
Definition make_tool_function (tool_name : string)
  (params : StdioServerParameters) (kwargs : list (string * value))
  : client string :=
  tool_call <- pure (MCPToolCall.new tool_name (Given kwargs)) ;;
  response <- call_mcp_tool tool_call params ;;
  if MCPToolResponse.success response then
    Ret (str_or (MCPToolResponse.content response) "No content")
  else
    Ret ("Error: " ++ py_str (opt_value (MCPToolResponse.error response))).

(** A LangChain [StructuredTool] as [from_function] is asked to build it. *)
Record StructuredTool : Type := {
  st_coroutine : list (string * value) -> client string;
  st_name : string;
  st_description : string;
  st_args_schema : args_schema
}.

(** The [try] block at the head of the loop body: the tool's metadata goes
    through [MCPToolSchema], and the summary that is printed lists the keys
    of the schema's [properties]. *)
Definition validate_tool (mcp_tool : Tool) : outcome MCPToolSchema.t :=
  validated_tool <~ MCPToolSchema.new (name mcp_tool) (description mcp_tool)
                      (inputSchema mcp_tool) ;;
  properties <~ get_method (VDict (MCPToolSchema.input_schema validated_tool))
                  "properties" (VDict []) ;;
  _ <~ keys_method properties ;;
  Returns validated_tool.

(** The loop over [mcp_tools_response.tools]; the result is
    [langchain_tools]. *)
Fixpoint discover_loop (server_params : StdioServerParameters)
  (tools : list Tool) : list StructuredTool :=
  match tools with
  | [] => []
  | mcp_tool :: rest =>
      match validate_tool mcp_tool with
      | Raises _ => discover_loop server_params rest
      | Returns validated_tool =>
          match dict_get TOOL_SCHEMAS (MCPToolSchema.name validated_tool) with
          | None => discover_loop server_params rest
          | Some args_schema =>
              {| st_coroutine :=
                   make_tool_function (MCPToolSchema.name validated_tool)
                     server_params;
                 st_name := MCPToolSchema.name validated_tool;
                 st_description :=
                   str_or (MCPToolSchema.description validated_tool)
                     ("Tool: " ++ MCPToolSchema.name validated_tool);
                 st_args_schema := args_schema |}
              :: discover_loop server_params rest
          end
      end
  end.

(** [discover_mcp_tools(server_config)], with [os.environ] as [environ]. *)
Definition discover_mcp_tools (environ : list (string * string))
  (server_config : MCPServerConfig.t)
  : client (list StructuredTool * StdioServerParameters) :=
  let server_params :=
    {| command := MCPServerConfig.command server_config;
       args := ["--directory"; MCPServerConfig.server_path server_config;
                "run";
                "spotify-mcp"];
       env := filter (fun kv => negb (String.eqb (fst kv) "VIRTUAL_ENV"))
                environ |} in
  with_session server_params
    (mcp_tools_response <- call list_tools ;;
     Ret (discover_loop server_params mcp_tools_response, server_params)).

(** The [properties] of the declared input schema can be listed: the entry
    is missing or it is a dict. *)
Definition properties_listable (mcp_tool : Tool) : bool :=
  match dict_lookup (inputSchema mcp_tool) "properties" with
  | None | Some (VDict _) => true
  | Some _ => false
  end.

End Session.

(** ** [class AgentQuery(BaseModel)] *)
Module AgentQuery.
Section Model.
Context {F : PyFloat} {L : Libraries}.

Record t : Type := {
  query : string
}.

Definition validate_query (v : string) : outcome string :=
  if String.eqb v "" || String.eqb (strip v) "" then
    Raises (PyError "ValueError" "Query cannot be empty or whitespace")
  else Returns (strip v).

(** [AgentQuery(query=...)]: [Field(min_length=1, max_length=5000)], then
    the validator. *)
Definition new (query : string) : outcome t :=
  if (Z.of_nat (String.length query) <? 1)%Z then
    Raises (ValidationError "AgentQuery"
              [("query", "String should have at least 1 character")])
  else if (5000 <? Z.of_nat (String.length query))%Z then
    Raises (ValidationError "AgentQuery"
              [("query", "String should have at most 5000 characters")])
  else
    match validate_query query with
    | Returns v => Returns {| query := v |}
    | Raises e =>
        Raises (ValidationError "AgentQuery"
                  (field_errors "query" (validate_query query)))
    end.

End Model.
End AgentQuery.

(** A character a tool name may have: alphanumeric, underscore, hyphen. *)
Definition name_char (c : ascii) : bool :=
  isalnum_char c || Ascii.eqb c "_" || Ascii.eqb c "-".

Section Discovered.
Context {F : PyFloat} {L : Libraries}.

(** A declared tool discovery has a use for: its name is in
    [TOOL_SCHEMAS] and the properties of its input schema can be listed. *)
Definition usable (mcp_tool : Tool) : bool :=
  match dict_get TOOL_SCHEMAS (name mcp_tool) with
  | Some _ => properties_listable mcp_tool
  | None => false
  end.

(** The parameters [discover_mcp_tools] connects with. *)
Definition spotify_mcp_params (environ : list (string * string))
  (server_config : MCPServerConfig.t) : StdioServerParameters :=
  {| command := MCPServerConfig.command server_config;
     args := ["--directory"; MCPServerConfig.server_path server_config;
              "run"; "spotify-mcp"];
     env := filter (fun kv => negb (String.eqb (fst kv) "VIRTUAL_ENV"))
              environ |}.

End Discovered.

End Client.

(* ================================================================== *)
(** * The lifespan snippet: [lifespan_example.py] *)
(* ================================================================== *)

Module Lifespan.

(** [class Database]: the mock has no state, an instance is [cls()]. *)
Inductive Database : Type := Database_instance.

(** [@dataclass class AppContext] *)
Record AppContext : Type := { db : Database }.

(** The server handed to the lifespan function, by its name. *)
Definition FastMCP : Type := string.

Section Lifespan.
Context {F : PyFloat}.

(** The methods of [Database], as calls that show in a run. *)
Inductive db_call : Type -> Type :=
| Database_connect : db_call Database
| Database_disconnect (self : Database) : db_call unit
| Database_query (self : Database) : db_call string.

(** What the methods of the mock do: [connect] returns an instance,
    [disconnect] passes, [query] returns its fixed string. *)
Definition mock (R : Type) (c : db_call R) : outcome R :=
  match c with
  | Database_connect => Returns Database_instance
  | Database_disconnect _ => Returns tt
  | Database_query _ => Returns "Query result"
  end.

(** An async generator: it ends, raises, awaits a call, or yields and is
    later resumed, by [anext] ([Returns tt]) or by [athrow(e)]
    ([Raises e]). *)
Inductive agen (Y : Type) : Type :=
| Stop
| Fail (e : exn)
| Await (R : Type) (c : db_call R) (k : outcome R -> agen Y)
| Yield (y : Y) (k : outcome unit -> agen Y).
Arguments Stop {Y}.
Arguments Fail {Y} e.
Arguments Await {Y R} c k.
Arguments Yield {Y} y k.

(** [yield y] as a statement. *)
Definition yield_ {Y} (y : Y) : agen Y :=
  Yield y (fun resumed => match resumed with
                          | Returns _ => Stop
                          | Raises e => Fail e
                          end).

(** [try: body  finally: await cleanup] *)
Fixpoint try_finally {Y} (body : agen Y) (cleanup : db_call unit) : agen Y :=
  match body with
  | Stop =>
      Await cleanup (fun o => match o with
                              | Returns _ => Stop
                              | Raises e' => Fail e'
                              end)
  | Fail e =>
      Await cleanup (fun o => match o with
                              | Returns _ => Fail e
                              | Raises e' => Fail e'
                              end)
  | Await c k => Await c (fun o => try_finally (k o) cleanup)
  | Yield y k => Yield y (fun resumed => try_finally (k resumed) cleanup)
  end.

Definition app_lifespan (server : FastMCP) : agen AppContext :=
  Await Database_connect
    (fun o => match o with
              | Raises e => Fail e
              | Returns db =>
                  try_finally (yield_ {| db := db |}) (Database_disconnect db)
              end).

(** [query_db(ctx)], given the lifespan context [ctx] leads to. *)
Definition query_db (lifespan_context : AppContext) : prog db_call string :=
  let db := db lifespan_context in
  call (Database_query db).

(** ** [@asynccontextmanager] and the [async with] of the framework *)

Definition RuntimeError (text : string) : exn := PyError "RuntimeError" text.

(** [__aenter__]: the generator runs up to its [yield]. *)
Fixpoint aenter {Y} (g : agen Y)
  : prog db_call (Y * (outcome unit -> agen Y)) :=
  match g with
  | Stop => Throw (RuntimeError "generator didn't yield")
  | Fail e => Throw e
  | Await c k => Call c (fun o => aenter (k o))
  | Yield y k => Ret (y, k)
  end.

(** The rest of [__aexit__] once the generator is resumed: it has to end. *)
Fixpoint to_the_end {Y} (didnt_stop : string) (g : agen Y)
  : prog db_call unit :=
  match g with
  | Stop => Ret tt
  | Fail e => Throw e
  | Await c k => Call c (fun o => to_the_end didnt_stop (k o))
  | Yield _ _ => Throw (RuntimeError didnt_stop)
  end.

(** The block under [async with]: when it has ended, [__aexit__] resumes
    the generator, with [anext] after a normal end and with [athrow]
    after an exception.  [None] is the case of a generator that ends
    after [athrow] and so swallows the exception. *)
Fixpoint aexit {Y B} (k : outcome unit -> agen Y) (block : prog db_call B)
  : prog db_call (option B) :=
  match block with
  | Ret b =>
      _ <- to_the_end "generator didn't stop" (k (Returns tt)) ;;
      Ret (Some b)
  | Throw e =>
      _ <- to_the_end "generator didn't stop after athrow()" (k (Raises e)) ;;
      Ret None
  | Call c k' => Call c (fun o => aexit k (k' o))
  end.

(** [async with lifespan(server) as ctx: serving ctx], which is how the
    framework runs the server inside the lifespan. *)
Definition run_server {B} (lifespan : FastMCP -> agen AppContext)
  (server : FastMCP) (serving : AppContext -> prog db_call B)
  : prog db_call (option B) :=
  entered <- aenter (lifespan server) ;;
  aexit (snd entered) (serving (fst entered)).

End Lifespan.

Arguments mock {F} R c.
Arguments Stop {F Y}.
Arguments Fail {F Y} e.
Arguments Await {F Y R} c k.
Arguments Yield {F Y} y k.

End Lifespan.

(* ================================================================== *)
(** * Instances for closed examples *)
(* ================================================================== *)

(** Runs in which no float occurs: no value holds one, and the conversion
    of an int to a float, which the examples do not reach, has none to
    return. *)
#[local] Instance no_floats : PyFloat := {|
  pyfloat := Empty_set;
  float_is_zero := fun x => match x with end;
  float_repr := fun x => match x with end;
  float_fixed := fun _ x => match x with end;
  float_grouped := fun x => match x with end;
  float_of_int := fun _ => None;
  int_truediv := fun _ _ => None;
  float_truediv := fun x _ => x;
  float_eq_int := fun x _ => match x with end
|}.

(** Content items given by their [str()], and a plain rendering of
    validation errors: the model, then a line per field. *)
#[local] Instance plain_libraries : Client.Libraries := {|
  Client.content_item := string;
  Client.item_str := fun s => s;
  Client.validation_error_str := fun model errors =>
    "validation error for " ++ model
    ++ String.concat ""
         (map (fun fe => nl ++ fst fe ++ nl ++ "  " ++ snd fe) errors)
|}.

Unset Implicit Arguments.

(** Three stubs for the Spotify API: one that fails every call, one that
    finds nothing, one that finds a single track whatever the search. *)
Definition api_down (R : Type) (c : Server.api_call R) : outcome R :=
  Raises (PyError "ConnectionError" "connection refused").


Definition bohemian_rhapsody : value :=
  Server.track_json "Bohemian Rhapsody" ["Queen"] "A Night at the Opera"
    "4u7EnebtmKWzUH433cf5Qv" "spotify:track:4u7EnebtmKWzUH433cf5Qv" VNone.

Definition api_finds_one (R : Type) (c : Server.api_call R) : outcome R :=
  match c in Server.api_call R return outcome R with
  | Server.sp_search _ type _ =>
      Returns (Server.search_json (type ++ "s") [bohemian_rhapsody])
  | _ => Returns VNone
  end.

(** The connection parameters of the demonstration, and a server whose
    pipe closes at once: the exception the SDK raises then carries no
    message. *)
Definition uv_params : Client.StdioServerParameters :=
  {| Client.command := "uv";
     Client.args := ["--directory"; "./example-client-spotify/spotify-mcp";
                     "run"; "spotify-mcp"];
     Client.env := [] |}.

Definition server_gone (R : Type) (c : Client.session_call R) : outcome R :=
  Raises (PyError "ClosedResourceError" "").

(** A server that is up and answers a tool call with one text item. *)
Definition server_up (R : Type) (c : Client.session_call R) : outcome R :=
  match c in Client.session_call R return outcome R with
  | Client.list_tools => Returns []
  | Client.call_tool _ _ =>
      Returns (Some {| Client.content := ["type='text' text='Found 1 tracks'"] |})
  | _ => Returns tt
  end.

(** A declared tool whose name is in [TOOL_SCHEMAS] and whose input schema
    gives [null] for its properties. *)
Definition search_without_properties : Client.Tool :=
  {| Client.name := "SpotifySearch";
     Client.description := Some "Search for tracks, albums, artists";
     Client.inputSchema := [("type", VStr "object"); ("properties", VNone)] |}.

(** A server that answers one [query_db] request and then fails. *)
Definition crashing_server (ctx : Lifespan.AppContext)
  : prog Lifespan.db_call string :=
  _ <- Lifespan.query_db ctx ;;
  Throw (PyError "ConnectionResetError" "connection reset by peer").

(** A Spotify API that knows two tracks, Queen with six top tracks, and
    two recommendations; and one whose search answer ends with an entry
    that has no name. *)
Definition two_tracks : list Server.track_data :=
  [ {| Server.td_name := "Bohemian Rhapsody";
       Server.td_artists := ["Queen"];
       Server.td_album := "A Night at the Opera";
       Server.td_id := "4u7EnebtmKWzUH433cf5Qv";
       Server.td_uri := "spotify:track:4u7EnebtmKWzUH433cf5Qv";
       Server.td_preview := Some VNone |};
    {| Server.td_name := "Under Pressure";
       Server.td_artists := ["Queen"; "David Bowie"];
       Server.td_album := "Hot Space";
       Server.td_id := "2fuCquhmrzHpu5xcA1ci9x";
       Server.td_uri := "spotify:track:2fuCquhmrzHpu5xcA1ci9x";
       Server.td_preview := None |} ].

Definition queen : Server.artist_data :=
  {| Server.ad_id := "1dfeR4HaWDbWqFHLkxsg1d";
     Server.ad_name := "Queen";
     Server.ad_popularity := 82;
     Server.ad_followers := 52345678;
     Server.ad_genres := ["classic rock"; "glam rock"; "rock"];
     Server.ad_uri := "spotify:artist:1dfeR4HaWDbWqFHLkxsg1d" |}.

Definition queen_top_tracks : list (string * string) :=
  [ ("Bohemian Rhapsody", "A Night at the Opera");
    ("Don't Stop Me Now", "Jazz");
    ("Another One Bites the Dust", "The Game");
    ("Under Pressure", "Hot Space");
    ("We Will Rock You", "News of the World");
    ("Somebody to Love", "A Day at the Races") ].

Definition two_recommendations : list Server.recommended :=
  [ {| Server.rc_name := "Heroes";
       Server.rc_artists := ["David Bowie"];
       Server.rc_album := "Heroes";
       Server.rc_id := "7Jh1bpe76CNTCgdgAdBw4Z";
       Server.rc_popularity := 75 |};
    {| Server.rc_name := "Rocket Man";
       Server.rc_artists := ["Elton John"];
       Server.rc_album := "Honky Chateau";
       Server.rc_id := "3gdewACMIVMEWVbyb8O9sY";
       Server.rc_popularity := 84 |} ].

Definition api_demo (R : Type) (c : Server.api_call R) : outcome R :=
  match c in Server.api_call R return outcome R with
  | Server.sp_search _ type _ =>
      if String.eqb type "artist"
      then Returns (Server.search_json "artists" [Server.artist_hit_json queen])
      else Returns (Server.search_json "tracks"
                      (map Server.track_data_json two_tracks))
  | Server.sp_artist _ => Returns (Server.artist_json queen)
  | Server.sp_artist_top_tracks _ =>
      Returns (Server.top_tracks_json queen_top_tracks)
  | Server.sp_recommendations _ _ =>
      Returns (Server.recommendations_json two_recommendations)
  | _ => Returns VNone
  end.

Definition api_nameless (R : Type) (c : Server.api_call R) : outcome R :=
  match c in Server.api_call R return outcome R with
  | Server.sp_search _ _ _ =>
      Returns (Server.search_json "tracks"
                 (map Server.track_data_json two_tracks
                  ++ [VDict [("id", VStr "0")]])%list)
  | _ => Returns VNone
  end.

(** A server that connects but lets every request after the handshake
    time out; the tools a server declares, of which discovery has a use
    for the first only; and a server that declares them. *)
Definition server_times_out (R : Type) (c : Client.session_call R)
  : outcome R :=
  match c in Client.session_call R return outcome R with
  | Client.list_tools | Client.call_tool _ _ =>
      Raises (PyError "McpError" "Timed out while waiting for response")
  | _ => Returns tt
  end.

Definition declared_tools : list Client.Tool :=
  [ {| Client.name := "SpotifySearch";
       Client.description := Some "Search for tracks, albums, artists";
       Client.inputSchema :=
         [("type", VStr "object");
          ("properties", VDict [("query", VDict [("type", VStr "string")])])] |};
    search_without_properties;
    {| Client.name := "SpotifyLyrics";
       Client.description := None;
       Client.inputSchema := [] |};
    {| Client.name := "SpotifyQueue";
       Client.description := None;
       Client.inputSchema := [] |} ].

Definition server_declares (R : Type) (c : Client.session_call R)
  : outcome R :=
  match c in Client.session_call R return outcome R with
  | Client.list_tools => Returns declared_tools
  | Client.call_tool _ _ => Returns None
  | _ => Returns tt
  end.

(** The environment and the configuration of the demonstration. *)
Definition demo_environ : list (string * string) :=
  [ ("PATH", "/usr/local/bin:/usr/bin");
    ("VIRTUAL_ENV", "/home/user/project/.venv");
    ("SPOTIFY_CLIENT_ID", "0123456789abcdef") ].

Definition demo_config : Client.MCPServerConfig.t :=
  {| Client.MCPServerConfig.server_path := "./spotify-mcp";
     Client.MCPServerConfig.command := "uv" |}.

(** A database that cannot be reached, and one that connects and answers
    but fails when it is disconnected. *)
Definition db_unreachable (R : Type) (c : Lifespan.db_call R) : outcome R :=
  match c in Lifespan.db_call R return outcome R with
  | Lifespan.Database_connect =>
      Raises (PyError "ConnectionRefusedError" "connection refused")
  | c' => Lifespan.mock _ c'
  end.



Definition seven_seeds : list Server.padded_id :=
  [ {| Server.pad_before := " "; Server.seed_id := "a1";
       Server.pad_after := " " |};
    {| Server.pad_before := ""; Server.seed_id := "b2";
       Server.pad_after := "" |};
    {| Server.pad_before := "  "; Server.seed_id := "c3";
       Server.pad_after := "" |};
    {| Server.pad_before := ""; Server.seed_id := "d4";
       Server.pad_after := " " |};
    {| Server.pad_before := ""; Server.seed_id := "e5";
       Server.pad_after := "" |};
    {| Server.pad_before := " "; Server.seed_id := "f6";
       Server.pad_after := "" |};
    {| Server.pad_before := ""; Server.seed_id := "g7";
       Server.pad_after := "" |} ].

(* ================================================================== *)
(** * Facts about the built-ins *)
(* ================================================================== *)

Section StringFacts.

Lemma is_prefix_app (p s : string) : is_prefix p (p ++ s) = true.
Proof.
  induction p as [|c p IH]; simpl.
  - reflexivity.
  - now rewrite Ascii.eqb_refl, IH.
Qed.

Lemma is_prefix_contains (p s : string) :
  is_prefix p s = true -> contains p s = true.
Proof. intros H. destruct s; simpl; now rewrite H. Qed.

Lemma contains_here (p s : string) : contains p (p ++ s) = true.
Proof. apply is_prefix_contains, is_prefix_app. Qed.

Lemma contains_skip (p a s : string) :
  contains p s = true -> contains p (a ++ s) = true.
Proof.
  intros H. induction a as [|c a IH]; simpl.
  - exact H.
  - rewrite IH. apply orb_true_r.
Qed.

Lemma contains_self (p : string) : contains p p = true.
Proof.
  apply is_prefix_contains. induction p as [|c p IH]; simpl.
  - reflexivity.
  - now rewrite Ascii.eqb_refl.
Qed.

Lemma append_assoc (a b c : string) : (a ++ b) ++ c = a ++ b ++ c.
Proof. induction a as [|x a IH]; simpl; [reflexivity | now rewrite IH]. Qed.

Lemma append_nil_r (a : string) : a ++ "" = a.
Proof. induction a as [|x a IH]; simpl; [reflexivity | now rewrite IH]. Qed.

Lemma split_not_nil (sep : ascii) (s : string) : split sep s <> [].
Proof.
  induction s as [|c s IH]; simpl.
  - discriminate.
  - destruct (Ascii.eqb c sep); [discriminate|].
    destruct (split sep s); discriminate.
Qed.

Lemma lstrip_blank (s : string) : all_chars isspace s = true -> lstrip s = "".
Proof.
  induction s as [|c s IH]; simpl; [reflexivity|].
  intros H. apply andb_true_iff in H as [Hc Hs]. rewrite Hc. now apply IH.
Qed.

Lemma strip_blank (s : string) : all_chars isspace s = true -> strip s = "".
Proof. intros H. unfold strip. now rewrite lstrip_blank. Qed.

Lemma split_no_sep (sep : ascii) (s : string) :
  has_char sep s = false -> split sep s = [s].
Proof.
  induction s as [|c s IH]; simpl; [reflexivity|].
  intros H. apply orb_false_iff in H as [Hc Hs].
  rewrite Hc, (IH Hs). reflexivity.
Qed.

Lemma blank_no_comma (s : string) :
  all_chars isspace s = true -> has_char "," s = false.
Proof.
  induction s as [|c s IH]; simpl; [reflexivity|].
  intros H. apply andb_true_iff in H as [Hc Hs]. rewrite (IH Hs).
  destruct (Ascii.eqb c ",") eqn:E; [|reflexivity].
  apply Ascii.eqb_eq in E. subst c. discriminate.
Qed.

Lemma split_pieces_no_sep (sep : ascii) (s p : string) :
  In p (split sep s) -> has_char sep p = false.
Proof.
  revert p. induction s as [|c s IH]; simpl; intros p Hin.
  - destruct Hin as [<-|[]]. reflexivity.
  - destruct (Ascii.eqb c sep) eqn:E.
    + destruct Hin as [<-|Hin]; [reflexivity | now apply IH].
    + destruct (split sep s) as [|h t] eqn:Es.
      * destruct Hin as [<-|[]]. simpl. now rewrite E.
      * destruct Hin as [<-|Hin].
        -- simpl. rewrite E. apply IH. now left.
        -- apply IH. now right.
Qed.

Lemma has_char_lstrip (c : ascii) (s : string) :
  has_char c s = false -> has_char c (lstrip s) = false.
Proof.
  induction s as [|d s IH]; simpl; [reflexivity|].
  intros H. apply orb_false_iff in H as [Hd Hs].
  destruct (isspace d); [now apply IH|]. simpl. now rewrite Hd, Hs.
Qed.

Lemma has_char_rstrip (c : ascii) (s : string) :
  has_char c s = false -> has_char c (rstrip s) = false.
Proof.
  induction s as [|d s IH]; simpl; [reflexivity|].
  intros H. apply orb_false_iff in H as [Hd Hs]. specialize (IH Hs).
  destruct (rstrip s); [destruct (isspace d)|]; simpl in *;
    now rewrite ?Hd, ?IH.
Qed.

Lemma has_char_strip (c : ascii) (s : string) :
  has_char c s = false -> has_char c (strip s) = false.
Proof. intros H. now apply has_char_rstrip, has_char_lstrip. Qed.

Lemma rstrip_idem (s : string) : rstrip (rstrip s) = rstrip s.
Proof.
  induction s as [|c s IH]; simpl; [reflexivity|].
  destruct (rstrip s) as [|d r] eqn:E.
  - destruct (isspace c) eqn:Ec; simpl; [reflexivity | now rewrite Ec].
  - simpl. simpl in IH. now rewrite IH.
Qed.

Lemma lstrip_starts_clean (s : string) : starts_clean (lstrip s) = true.
Proof.
  induction s as [|c s IH]; simpl; [reflexivity|].
  destruct (isspace c) eqn:E; [exact IH | simpl; now rewrite E].
Qed.

Lemma lstrip_clean (s : string) : starts_clean s = true -> lstrip s = s.
Proof. destruct s as [|c s]; simpl; [reflexivity|]. now destruct (isspace c). Qed.

Lemma rstrip_starts_clean (s : string) :
  starts_clean s = true -> starts_clean (rstrip s) = true.
Proof.
  destruct s as [|c s]; simpl; [reflexivity|].
  destruct (isspace c) eqn:E; [discriminate|]. intros _.
  destruct (rstrip s); simpl; now rewrite E.
Qed.

Lemma strip_idem (s : string) : strip (strip s) = strip s.
Proof.
  unfold strip.
  rewrite (lstrip_clean (rstrip (lstrip s))).
  - apply rstrip_idem.
  - apply rstrip_starts_clean, lstrip_starts_clean.
Qed.

Lemma lstrip_length (s : string) : (String.length (lstrip s) <= String.length s)%nat.
Proof. induction s as [|c s IH]; simpl; [lia|]. destruct (isspace c); simpl; lia. Qed.

Lemma rstrip_length (s : string) : (String.length (rstrip s) <= String.length s)%nat.
Proof.
  induction s as [|c s IH]; simpl; [lia|].
  destruct (rstrip s); [destruct (isspace c)|]; simpl in *; lia.
Qed.

Lemma strip_length (s : string) : (String.length (strip s) <= String.length s)%nat.
Proof. unfold strip. pose proof (rstrip_length (lstrip s)). pose proof (lstrip_length s). lia. Qed.

Lemma rstrip_nonblank (s : string) :
  nonblank s = true -> rstrip s <> "".
Proof.
  unfold nonblank. induction s as [|c s IH]; simpl; [discriminate|].
  intros H. destruct (rstrip s) eqn:E; [|discriminate].
  destruct (isspace c); [|discriminate]. simpl in H. now apply IH in H.
Qed.

Lemma lstrip_nonblank (s : string) :
  nonblank s = true ->
  nonblank (lstrip s) = true.
Proof.
  unfold nonblank. induction s as [|c s IH]; simpl; [discriminate|].
  destruct (isspace c) eqn:E; simpl; [exact IH|]. now rewrite E.
Qed.

Lemma strip_nonblank (s : string) :
  nonblank s = true -> strip s <> "".
Proof. intros H. now apply rstrip_nonblank, lstrip_nonblank. Qed.

Lemma strip_blank_iff (s : string) :
  strip s = "" -> nonblank s = false.
Proof.
  intros H. destruct (nonblank s) eqn:E; [|reflexivity].
  now apply strip_nonblank in E.
Qed.

Lemma isalnum_not_space (c : ascii) : isalnum_char c = true -> isspace c = false.
Proof.
  destruct c as [[] [] [] [] [] [] [] []]; vm_compute; intros H; solve [reflexivity | discriminate H].
Qed.


(** ** Joining, splitting and stripping *)

Lemma join_concat (sep : string) (l : list string) :
  join sep l = String.concat sep l.
Proof.
  induction l as [|a l IH]; [reflexivity|].
  destruct l as [|b l]; [reflexivity|].
  cbn [join String.concat]. cbn [join String.concat] in IH. now rewrite IH.
Qed.

Lemma concat_cons (x : string) (l : list string) :
  String.concat "" (x :: l) = x ++ String.concat "" l.
Proof.
  destruct l as [|y l]; cbn [String.concat].
  - now rewrite append_nil_r.
  - reflexivity.
Qed.

Lemma has_char_app (c : ascii) (a b : string) :
  has_char c (a ++ b) = has_char c a || has_char c b.
Proof.
  induction a as [|d a IH]; cbn; [reflexivity|].
  now rewrite IH, orb_assoc.
Qed.

(** A text that has [part] somewhere in it. *)
Lemma part_here (part rest : string) :
  exists before after, part ++ rest = before ++ part ++ after.
Proof. now exists "", rest. Qed.

Lemma part_later (x part s : string) :
  (exists before after, s = before ++ part ++ after) ->
  exists before after, x ++ s = before ++ part ++ after.
Proof.
  intros [b [a ->]]. exists (x ++ b), a. now rewrite append_assoc.
Qed.

Lemma part_earlier (part s y : string) :
  (exists before after, s = before ++ part ++ after) ->
  exists before after, s ++ y = before ++ part ++ after.
Proof.
  intros [b [a ->]]. exists b, (a ++ y). now rewrite !append_assoc.
Qed.

Lemma part_of_concat (sep a : string) (l : list string) :
  In a l -> exists before after, String.concat sep l = before ++ a ++ after.
Proof.
  induction l as [|x l IH]; [contradiction|].
  intros [->|Hin].
  - destruct l as [|y l]; cbn [String.concat].
    + exists "", "". now rewrite append_nil_r.
    + apply part_here.
  - destruct l as [|y l]; [contradiction|]. cbn [String.concat].
    apply part_later, part_later, IH, Hin.
Qed.

Lemma split_app (sep : ascii) (p rest : string) :
  has_char sep p = false ->
  split sep (p ++ String sep rest) = p :: split sep rest.
Proof.
  induction p as [|c p IH]; cbn [append split has_char].
  - intros _. now rewrite Ascii.eqb_refl.
  - intros H. apply orb_false_iff in H as [Hc Hp]. rewrite Hc.
    now rewrite (IH Hp).
Qed.

Lemma split_concat (sep : ascii) (pieces : list string) :
  pieces <> [] ->
  Forall (fun p => has_char sep p = false) pieces ->
  split sep (String.concat (String sep "") pieces) = pieces.
Proof.
  induction pieces as [|p pieces IH]; [contradiction|].
  intros _ Hall. inversion Hall as [|? ? Hp Hrest]; subst.
  destruct pieces as [|q pieces].
  - cbn. now apply split_no_sep.
  - cbn [String.concat]. cbn [append].
    rewrite split_app by assumption. f_equal.
    apply IH; [discriminate | assumption].
Qed.

Lemma concat_split (sep : ascii) (s : string) :
  String.concat (String sep "") (split sep s) = s.
Proof.
  induction s as [|c s IH]; [reflexivity|].
  cbn [split]. destruct (split sep s) as [|h t] eqn:E;
    [now apply split_not_nil in E|].
  destruct (Ascii.eqb_spec c sep) as [->|Hne].
  - change (String.concat (String sep "") ("" :: h :: t))
      with ("" ++ String sep "" ++ String.concat (String sep "") (h :: t)).
    now rewrite IH.
  - destruct t as [|h' t].
    + cbn in *. now rewrite IH.
    + change (String.concat (String sep "") (String c h :: h' :: t))
        with (String c (h ++ String sep ""
                        ++ String.concat (String sep "") (h' :: t))).
      f_equal. exact IH.
Qed.

Lemma lstrip_app_blank (l s : string) :
  all_chars isspace l = true -> lstrip (l ++ s) = lstrip s.
Proof.
  induction l as [|c l IH]; cbn; [reflexivity|].
  intros H. apply andb_true_iff in H as [Hc Hl]. now rewrite Hc, IH.
Qed.

Lemma rstrip_blank (r : string) : all_chars isspace r = true -> rstrip r = "".
Proof.
  induction r as [|c r IH]; cbn; [reflexivity|].
  intros H. apply andb_true_iff in H as [Hc Hr]. now rewrite (IH Hr), Hc.
Qed.

Lemma rstrip_app_blank (s r : string) :
  s <> "" -> ends_clean s = true -> all_chars isspace r = true ->
  rstrip (s ++ r) = s.
Proof.
  intros Hne He Hr. induction s as [|c s IH]; [contradiction|].
  cbn [append rstrip]. destruct s as [|d s].
  - cbn [append]. rewrite (rstrip_blank _ Hr). cbn in He.
    apply negb_true_iff in He. now rewrite He.
  - rewrite IH; [reflexivity | discriminate | exact He].
Qed.

Lemma strip_padded (l s r : string) :
  all_chars isspace l = true -> all_chars isspace r = true ->
  trimmed s = true -> strip (l ++ s ++ r) = s.
Proof.
  intros Hl Hr Ht. apply andb_true_iff in Ht as [Hs He].
  unfold strip. rewrite lstrip_app_blank by assumption.
  destruct s as [|c s].
  - cbn [append]. rewrite lstrip_blank by assumption. reflexivity.
  - rewrite lstrip_clean.
    + apply rstrip_app_blank; [discriminate | assumption | assumption].
    + exact Hs.
Qed.

Lemma lstrip_decompose (s : string) :
  exists l, all_chars isspace l = true /\ s = l ++ lstrip s.
Proof.
  induction s as [|c s [l [Hl Hs]]]; [now exists ""|].
  cbn [lstrip]. destruct (isspace c) eqn:Ec.
  - exists (String c l). cbn. rewrite Ec, Hl. split; [reflexivity|]. now f_equal.
  - now exists "".
Qed.

Lemma rstrip_decompose (s : string) :
  exists r, all_chars isspace r = true /\ s = rstrip s ++ r.
Proof.
  induction s as [|c s [r [Hr Hs]]]; [now exists ""|].
  cbn [rstrip]. destruct (rstrip s) as [|d t] eqn:E.
  - destruct (isspace c) eqn:Ec.
    + exists (String c r). cbn. rewrite Ec, Hr. split; [reflexivity|].
      cbn in Hs. now rewrite <- Hs.
    + exists r. split; [assumption|]. cbn. cbn in Hs. now rewrite <- Hs.
  - exists r. split; [assumption|]. cbn [append]. f_equal. exact Hs.
Qed.

Lemma rstrip_ends_clean (s : string) : ends_clean (rstrip s) = true.
Proof.
  induction s as [|c s IH]; [reflexivity|].
  cbn [rstrip]. destruct (rstrip s) as [|d t] eqn:E.
  - destruct (isspace c) eqn:Ec; cbn; [reflexivity | now rewrite Ec].
  - exact IH.
Qed.

Lemma strip_trimmed (s : string) : trimmed (strip s) = true.
Proof.
  unfold trimmed, strip. rewrite rstrip_ends_clean.
  now rewrite rstrip_starts_clean by apply lstrip_starts_clean.
Qed.

Lemma strip_decompose (s : string) :
  exists l r, all_chars isspace l = true /\ all_chars isspace r = true
              /\ s = l ++ strip s ++ r.
Proof.
  destruct (lstrip_decompose s) as [l [Hl Hs]].
  destruct (rstrip_decompose (lstrip s)) as [r [Hr Hs']].
  exists l, r. split; [assumption|]. split; [assumption|].
  unfold strip. now rewrite <- Hs'.
Qed.

(** Thousands: the groups of [format(n, ',')]. *)
Lemma concat_head (sep : string) (d : ascii) (g : string) (gs : list string) :
  String.concat sep (String d g :: gs) = String d (String.concat sep (g :: gs)).
Proof. destruct gs; reflexivity. Qed.

Lemma length_app (a b : string) :
  String.length (a ++ b) = (String.length a + String.length b)%nat.
Proof. induction a as [|c a IH]; cbn; [reflexivity | now rewrite IH]. Qed.

Lemma concat_length (g : string) (gs : list string) :
  Forall (fun s => String.length s = 3%nat) gs ->
  String.length (String.concat "" (g :: gs))
  = (String.length g + 3 * List.length gs)%nat.
Proof.
  revert g. induction gs as [|h gs IH]; intros g Hall.
  - cbn. lia.
  - inversion Hall as [|? ? Hh Hgs]; subst.
    rewrite concat_cons, length_app, (IH h Hgs). cbn [List.length].
    lia.
Qed.

Lemma group_digits_groups (ds : string) :
  ds <> "" ->
  exists g gs,
    group_digits (String.length ds) ds = String.concat "," (g :: gs)
    /\ String.concat "" (g :: gs) = ds
    /\ (1 <= String.length g <= 3)%nat
    /\ Forall (fun s => String.length s = 3%nat) gs.
Proof.
  induction ds as [|d ds IH]; [contradiction|]. intros _.
  destruct ds as [|d' ds'].
  - exists (String d ""), []. cbn. repeat split; auto.
  - destruct IH as [g [gs [Hg [Hc [Hlen Hall]]]]]; [discriminate|].
    remember (String d' ds') as rest eqn:Erest.
    cbn [String.length group_digits].
    assert (Hk : String.length rest = (String.length g + 3 * List.length gs)%nat)
      by (rewrite <- Hc at 1; now apply concat_length).
    assert (Hpos : (0 <? String.length rest)%nat = true)
      by (apply Nat.ltb_lt; lia).
    rewrite Hpos, Hg. cbn [andb].
    destruct (String.length rest mod 3 =? 0)%nat eqn:Em.
    + apply Nat.eqb_eq in Em.
      assert (Hg3 : String.length g = 3%nat).
      { rewrite Hk in Em.
        replace (String.length g + 3 * List.length gs)%nat
          with (String.length g + List.length gs * 3)%nat in Em by lia.
        rewrite Nat.Div0.mod_add in Em.
        assert (String.length g = 1 \/ String.length g = 2
                \/ String.length g = 3)%nat as [E|[E|E]] by lia;
          rewrite E in Em; cbn in Em; try discriminate; exact E. }
      exists (String d ""), (g :: gs). repeat split.
      * rewrite concat_cons, Hc. reflexivity.
      * cbn. lia.
      * cbn. lia.
      * constructor; assumption.
    + apply Nat.eqb_neq in Em.
      assert (Hg3 : String.length g <> 3%nat).
      { intros E. apply Em.
        rewrite Hk, E.
        replace (3 + 3 * List.length gs)%nat
          with (0 + (1 + List.length gs) * 3)%nat by lia.
        now rewrite Nat.Div0.mod_add. }
      exists (String d g), gs. repeat split.
      * now rewrite concat_head.
      * now rewrite concat_head, Hc.
      * cbn. lia.
      * cbn. lia.
      * assumption.
Qed.

Lemma int_str_not_empty (n : Z) : int_str n <> "".
Proof.
  unfold int_str. destruct (Z.to_int n) as [d|d]; cbn; [|discriminate].
  destruct d; cbn; discriminate.
Qed.

Lemma int_grouped_groups (n : Z) :
  (0 <= n)%Z ->
  exists g gs,
    int_grouped n = String.concat "," (g :: gs)
    /\ String.concat "" (g :: gs) = NilZero.string_of_int (Z.to_int n)
    /\ (1 <= String.length g <= 3)%nat
    /\ Forall (fun s => String.length s = 3%nat) gs.
Proof.
  intros Hn. unfold int_grouped.
  destruct (Z.ltb_spec n 0) as [|_]; [lia|].
  rewrite Z.abs_eq by assumption. cbn [append].
  apply group_digits_groups, int_str_not_empty.
Qed.

End StringFacts.

(* ================================================================== *)
(** * Facts about programs *)
(* ================================================================== *)

Section ProgFacts.
Context {F : PyFloat} {C : Type -> Type}.
Variable answer : forall R, C R -> outcome R.

Lemma trace_bind {A B} (m : prog C A) (k : A -> prog C B) :
  trace answer (bind m k)
  = (trace answer m
     ++ match result answer m with
        | Returns a => trace answer (k a)
        | Raises _ => []
        end)%list.
Proof.
  induction m as [a|e|R c k' IH]; simpl.
  - reflexivity.
  - reflexivity.
  - now rewrite IH.
Qed.

Lemma result_bind {A B} (m : prog C A) (k : A -> prog C B) :
  result answer (bind m k)
  = match result answer m with
    | Returns a => result answer (k a)
    | Raises e => Raises e
    end.
Proof. induction m as [a|e|R c k' IH]; simpl; auto. Qed.

Lemma trace_pure {A} (o : outcome A) : trace answer (pure (C := C) o) = [].
Proof. now destruct o. Qed.

Lemma result_pure {A} (o : outcome A) : result answer (pure (C := C) o) = o.
Proof. now destruct o. Qed.

Lemma trace_call {R} (c : C R) :
  trace answer (call c) = [Event c (answer _ c)].
Proof. simpl. now rewrite trace_pure. Qed.

Lemma result_call {R} (c : C R) : result answer (call c) = answer _ c.
Proof. simpl. apply result_pure. Qed.

(** A handler that only returns adds no call and turns every exception
    into a result. *)
Lemma trace_catch_ret {A} (m : prog C A) (h : exn -> A) :
  trace answer (catch m (fun e => Ret (h e))) = trace answer m.
Proof. induction m as [a|e|R c k IH]; simpl; auto. now rewrite IH. Qed.

Lemma result_catch_ret {A} (m : prog C A) (h : exn -> A) :
  result answer (catch m (fun e => Ret (h e)))
  = Returns match result answer m with
            | Returns a => a
            | Raises e => h e
            end.
Proof. induction m as [a|e|R c k IH]; simpl; auto. Qed.

Lemma result_catch {A} (m : prog C A) (h : exn -> prog C A) :
  result answer (catch m h)
  = match result answer m with
    | Returns a => Returns a
    | Raises e => result answer (h e)
    end.
Proof. induction m as [a|e|R c k IH]; simpl; auto. Qed.

Lemma result_leaving {A} (exit : C unit) (body : prog C A) :
  result answer (leaving exit body)
  = match answer _ exit with
    | Returns _ => result answer body
    | Raises e' => Raises e'
    end.
Proof.
  induction body as [a|e|R c k IH]; simpl; auto;
    now destruct (answer unit exit).
Qed.

Lemma result_async_with {A} (enter exit : C unit) (body : prog C A) :
  result answer (async_with enter exit body)
  = match answer _ enter with
    | Returns _ => result answer (leaving exit body)
    | Raises e => Raises e
    end.
Proof. unfold async_with. simpl. now destruct (answer unit enter). Qed.

Lemma propagates_ret {A} (a : A) : propagates answer (Ret (C := C) a).
Proof. intros ev e []. Qed.

Lemma propagates_throw {A} (e : exn) :
  propagates answer (Throw (C := C) (A := A) e).
Proof. intros ev e' []. Qed.

Lemma propagates_pure {A} (o : outcome A) :
  propagates answer (pure (C := C) o).
Proof. destruct o; [apply propagates_ret | apply propagates_throw]. Qed.

Lemma propagates_call {R} (c : C R) : propagates answer (call c).
Proof.
  intros ev e Hin Hev. rewrite trace_call in Hin. rewrite result_call.
  destruct Hin as [<-|[]]. simpl in Hev.
  destruct (answer R c); now inversion Hev.
Qed.

Lemma propagates_bind {A B} (m : prog C A) (k : A -> prog C B) :
  propagates answer m -> (forall a, propagates answer (k a)) ->
  propagates answer (bind m k).
Proof.
  intros Hm Hk ev e Hin Hev. rewrite trace_bind in Hin. rewrite result_bind.
  apply in_app_or in Hin as [Hin|Hin].
  - now rewrite (Hm ev e Hin Hev).
  - destruct (result answer m) as [a|e'].
    + exact (Hk a ev e Hin Hev).
    + destruct Hin.
Qed.

Lemma trace_leaving {A} (exit : C unit) (body : prog C A) :
  trace answer (leaving exit body)
  = (trace answer body ++ [Event exit (answer _ exit)])%list.
Proof.
  induction body as [a|e|R c k IH]; simpl.
  - now destruct (answer unit exit).
  - now destruct (answer unit exit).
  - now rewrite IH.
Qed.

Lemma trace_async_with {A} (enter exit : C unit) (body : prog C A) :
  trace answer (async_with enter exit body)
  = Event enter (answer _ enter)
    :: match answer _ enter with
       | Returns _ => trace answer (leaving exit body)
       | Raises _ => []
       end.
Proof. unfold async_with. simpl. now destruct (answer unit enter). Qed.

(** A handler that calls nothing adds nothing to the run. *)
Lemma trace_catch_quiet {A} (m : prog C A) (h : exn -> outcome A) :
  trace answer (catch m (fun e => pure (h e))) = trace answer m.
Proof.
  induction m as [a|e|R c k IH]; simpl; auto.
  - apply trace_pure.
  - now rewrite IH.
Qed.

Lemma last_raised_app (tr1 tr2 : list (event C)) :
  last_raised (tr1 ++ tr2)
  = match last_raised tr2 with
    | Some e => Some e
    | None => last_raised tr1
    end.
Proof.
  unfold last_raised. rewrite fold_left_app.
  generalize (fold_left (fun acc ev => match raised ev with
                                       | Some e => Some e
                                       | None => acc
                                       end) tr1 None).
  induction tr2 as [|ev tr2 IH]; intros acc; cbn.
  - now destruct acc.
  - rewrite IH, (IH (match raised ev with Some e => Some e | None => None end)).
    destruct (fold_left _ tr2 None); [reflexivity|].
    now destruct (raised ev).
Qed.

End ProgFacts.

Create HintDb propagation.
#[local] Hint Resolve propagates_ret propagates_throw propagates_pure
  propagates_call : propagation.

(** Breaks a tool body into its calls and its computations. *)
Ltac propagation :=
  repeat first
    [ apply propagates_bind; [ | intros ? ]
    | solve [ auto with propagation ]
    | match goal with
      | |- propagates _ (if ?b then _ else _) => destruct b
      | |- propagates _ (match ?x with _ => _ end) => destruct x
      end ].

(* ================================================================== *)
(** * The tool server *)
(* ================================================================== *)

Section ServerFacts.
Import Server.
Context {F : PyFloat}.
Variable answer : forall R, api_call R -> outcome R.

Lemma try_tool_trace (body : tool string) :
  trace answer (try_tool body) = trace answer body.
Proof. apply trace_catch_ret. Qed.

Lemma try_tool_result (body : tool string) :
  result answer (try_tool body)
  = Returns match result answer body with
            | Returns s => s
            | Raises e => on_error e
            end.
Proof. apply result_catch_ret. Qed.

(** No tool lets an exception out, whatever the API does. *)
Lemma serve_returns (r : request) :
  exists s, result answer (serve r) = Returns s.
Proof.
  destruct r; cbn [serve];
    unfold search_tracks, get_artist_info, get_audio_features,
      get_recommendations;
    rewrite try_tool_result; eauto.
Qed.

Lemma try_tool_reports (body : tool string) :
  propagates answer body ->
  forall ev e,
    In ev (trace answer (try_tool body)) -> raised ev = Some e ->
    result answer (try_tool body) = Returns (on_error e).
Proof.
  intros Hbody ev e Hin Hev. rewrite try_tool_trace in Hin.
  rewrite try_tool_result. now rewrite (Hbody ev e Hin Hev).
Qed.

Lemma on_error_says_error (e : exn) : contains "error" (on_error e) = true.
Proof.
  destruct e as [http_status code msg reason | cls text]; simpl on_error.
  - apply (contains_skip "error" "Spotify API "), is_prefix_contains.
    reflexivity.
  - apply (contains_skip "error" "Unexpected "), is_prefix_contains.
    reflexivity.
Qed.

(** C2: whichever tool is called and with whatever arguments, when a call
    to the Spotify API made on the way raises an exception, be it a
    [SpotifyException] or any other, the tool returns a string, the one its
    handler builds from that exception, and this string contains "error";
    nothing is raised to the caller. *)
Theorem api_failure_is_reported (r : request) (ev : event api_call) (e : exn) :
  In ev (trace answer (serve r)) -> raised ev = Some e ->
  result answer (serve r) = Returns (on_error e)
  /\ contains "error" (on_error e) = true.
Proof.
  intros Hin Hev. split; [|apply on_error_says_error].
  revert ev e Hin Hev.
  destruct r; cbn [serve];
    unfold search_tracks, get_artist_info, get_audio_features,
      get_recommendations;
    apply try_tool_reports; propagation.
Qed.

(** C4: for every integer [limit], the one call [search_tracks] makes is a
    track search for the query whose limit is [min(limit, 50)]; with
    [limit = 1000] the limit asked of the API is 50. *)
Theorem search_limit_is_clamped (query : string) (limit : Z) :
  trace answer (search_tracks query limit)
  = [Event (sp_search query "track" (Z.min limit 50))
       (answer _ (sp_search query "track" (Z.min limit 50)))]
  /\ trace answer (search_tracks query 1000)
     = [Event (sp_search query "track" 50)
          (answer _ (sp_search query "track" 50))].
Proof.
  assert (H : forall l,
             trace answer (search_tracks query l)
             = [Event (sp_search query "track" (Z.min l 50))
                  (answer _ (sp_search query "track" (Z.min l 50)))]).
  { intros l. unfold search_tracks. rewrite try_tool_trace.
    rewrite trace_bind, trace_call, result_call.
    destruct (answer _ (sp_search query "track" (Z.min l 50))) as [results|e];
      [|reflexivity].
    rewrite trace_bind, trace_pure, result_pure.
    destruct (no_items "tracks" results) as [[|]|e]; try reflexivity.
    simpl. now rewrite trace_bind, trace_pure, result_pure;
      destruct (_ <~ _ ;; _). }
  split; [apply H | apply (H 1000%Z)].
Qed.

(** The conditions the tools test give [True] on an answer that holds no
    result. *)
Lemma no_items_empty (section : string) (v : value) :
  empty_search section v = true -> no_items section v = Returns true.
Proof.
  unfold empty_search, no_items.
  destruct (truthy v) eqn:Tv; simpl; [|reflexivity].
  destruct v as [| | | | | |d]; try discriminate. simpl.
  destruct (dict_lookup d section) as [sec|]; simpl; [|reflexivity].
  destruct (truthy sec) eqn:Ts; simpl; [|reflexivity].
  destruct sec as [| | | | | |sd]; try discriminate. simpl.
  destruct (dict_lookup sd "items") as [items|]; simpl; [|discriminate].
  now intros ->.
Qed.

Lemma top_tracks_empty (v : value) :
  empty_tracks true v = true ->
  (if negb (truthy v) then Returns true
   else tracks <~ get_method v "tracks" VNone ;;
        Returns (negb (truthy tracks))) = Returns true.
Proof.
  unfold empty_tracks. destruct (truthy v) eqn:Tv; simpl; [|reflexivity].
  destruct v as [| | | | | |d]; try discriminate. simpl.
  destruct (dict_lookup d "tracks"); simpl; [|reflexivity].
  now intros ->.
Qed.

Lemma recommendations_empty (v : value) :
  empty_tracks false v = true ->
  (if negb (truthy v) then Returns true
   else tracks <~ getitem v "tracks" ;;
        Returns (negb (truthy tracks))) = Returns true.
Proof.
  unfold empty_tracks. destruct (truthy v) eqn:Tv; simpl; [|reflexivity].
  destruct v as [| | | | | |d]; try discriminate. simpl.
  destruct (dict_lookup d "tracks"); simpl; [|discriminate].
  now intros ->.
Qed.

Lemma features_empty (v : value) :
  empty_features v = true ->
  (if negb (truthy v) then Returns true
   else first <~ getfirst v ;; Returns (negb (truthy first))) = Returns true.
Proof.
  unfold empty_features. destruct (truthy v) eqn:Tv; simpl; [|reflexivity].
  destruct v as [| | | | |[|first rest]|]; try discriminate. simpl.
  now intros ->.
Qed.

Lemma says_not_found_intro (w s : string) :
  In w ["No results"; "No artist found"; "No audio features found";
        "No recommendations found"; "Could not retrieve"] ->
  contains w s = true -> says_not_found s = true.
Proof. intros Hw Hc. apply existsb_exists. eauto. Qed.

(** Unfolds one layer of a run. *)
Ltac unroll :=
  rewrite ?try_tool_trace, ?try_tool_result, ?trace_bind, ?result_bind,
    ?trace_call, ?result_call, ?trace_pure, ?result_pure in *.

Ltac split_on x :=
  lazymatch x with
  | context [@result] => fail
  | context [@trace] => fail
  | _ => tryif is_var x then destruct x else destruct x eqn:?
  end.

(** Splits on the next answer or condition the run depends on. *)
Ltac next_case :=
  match goal with
  | H : context [if ?b then _ else _] |- _ => split_on b
  | |- context [if ?b then _ else _] => split_on b
  | H : context [match ?x with Returns _ => _ | Raises _ => _ end] |- _ =>
      split_on x
  | |- context [match ?x with Returns _ => _ | Raises _ => _ end] =>
      split_on x
  end.

Ltac all_cases :=
  repeat (unroll; cbn [app trace result] in *; try next_case).

Ltac found w :=
  eexists; split; [reflexivity|]; split;
  [ simpl; discriminate
  | apply (says_not_found_intro w);
    [ cbn; tauto | apply is_prefix_contains; reflexivity ] ].

Ltac by_condition lem Hev :=
  apply lem in Hev;
  repeat match goal with
         | H : negb _ = _ |- _ => rewrite H in Hev; clear H
         end;
  cbn beta iota in Hev; congruence.









(** ** A search that finds one track *)

Lemma artist_names_json (artists : list string) :
  artist_names (VList (map (fun a => VDict [("name", VStr a)]) artists))
  = Returns (map VStr artists).
Proof.
  unfold artist_names. cbn [iterate obind].
  induction artists as [|a l IH]; cbn; [reflexivity|].
  cbn in IH. now rewrite IH.
Qed.

Lemma join_items_strings (i : nat) (l : list string) :
  join_items i (map VStr l) = Returns l.
Proof.
  revert i. induction l as [|a l IH]; intros i; cbn; [reflexivity|].
  now rewrite IH.
Qed.

Lemma join_list_strings (sep : string) (l : list string) :
  join_list sep (map VStr l) = Returns (join sep l).
Proof. unfold join_list. now rewrite join_items_strings. Qed.

Lemma make_track_info_json (name album id uri : string)
  (artists : list string) (preview_url : value) :
  make_track_info (track_json name artists album id uri preview_url)
  = Returns {| ti_name := VStr name; ti_artist := join ", " artists;
               ti_album := VStr album; ti_uri := VStr uri; ti_id := VStr id;
               ti_preview_url := preview_url |}.
Proof.
  unfold make_track_info, track_json. cbn [getitem dict_lookup String.eqb
    Ascii.eqb Bool.eqb obind].
  rewrite artist_names_json. cbn [obind]. rewrite join_list_strings.
  reflexivity.
Qed.

(** C6: when the stubbed API answers the search [search_tracks] makes for
    a query (such as "Bohemian Rhapsody" with [limit = 1]) with exactly one
    track, the tool returns the text block written out below: a heading,
    then the entry numbered "1." with the track's name and its artists'
    names with ", " between them, and lines for the album's name, the
    track id, the URI and the preview (a URL, or "None" for [null]).  So
    the text has in it "1.", the name, every artist's name, the album's
    name, the id and the URI. *)
Theorem one_track_is_listed (query : string) (limit : Z)
  (name album id uri : string) (artists : list string)
  (preview_url : option string) :
  answer _ (sp_search query "track" (Z.min limit 50))
  = Returns (search_json "tracks"
               [track_json name artists album id uri
                  match preview_url with
                  | Some url => VStr url
                  | None => VNone
                  end]) ->
  exists text,
    result answer (search_tracks query limit) = Returns text
    /\ text = "Found 1 tracks:" ++ nl ++ nl
              ++ "1. " ++ name ++ " by " ++ String.concat ", " artists ++ nl
              ++ "   Album: " ++ album ++ nl
              ++ "   Track ID: " ++ id ++ nl
              ++ "   URI: " ++ uri ++ nl
              ++ "   Preview: "
              ++ match preview_url with
                 | Some url => url
                 | None => "None"
                 end ++ nl ++ nl
    /\ forall part,
         In part ("1." :: name :: album :: id :: uri :: artists) ->
         exists before after, text = before ++ part ++ after.
Proof.
  intros Hanswer. eexists. split; [|split; [reflexivity|]].
  - unfold search_tracks. unroll. rewrite Hanswer.
    cbn [search_json no_items truthy negb get_method getitem dict_lookup
         String.eqb Ascii.eqb Bool.eqb obind].
    unroll. cbn [search_json getitem dict_lookup String.eqb Ascii.eqb
                 Bool.eqb obind iterate omap].
    rewrite make_track_info_json, join_concat.
    now destruct preview_url.
  - intros part Hin.
    apply (part_later ("Found 1 tracks:" ++ nl ++ nl)).
    change ("1. " ++ name ++ " by " ++ String.concat ", " artists ++ nl
            ++ "   Album: " ++ album ++ nl
            ++ "   Track ID: " ++ id ++ nl
            ++ "   URI: " ++ uri ++ nl
            ++ "   Preview: "
            ++ match preview_url with
               | Some url => url
               | None => "None"
               end ++ nl ++ nl)
      with ("1." ++ " " ++ name ++ " by " ++ String.concat ", " artists ++ nl
            ++ "   Album: " ++ album ++ nl
            ++ "   Track ID: " ++ id ++ nl
            ++ "   URI: " ++ uri ++ nl
            ++ "   Preview: "
            ++ match preview_url with
               | Some url => url
               | None => "None"
               end ++ nl ++ nl).
    destruct Hin as [<-|[<-|[<-|[<-|[<-|Hin]]]]];
      [ repeat first [ apply part_here | apply part_later ] .. | ].
    do 4 apply part_later. apply part_earlier, part_of_concat, Hin.
Qed.

(** ** Recommendations *)

Lemma parse_track_ids_not_nil (seed_track_ids : string) :
  parse_track_ids seed_track_ids <> [].
Proof.
  unfold parse_track_ids.
  destruct (split "," seed_track_ids) eqn:E; [|discriminate].
  now apply split_not_nil in E.
Qed.

Lemma recommendations_trace (seed_track_ids : string) (limit : Z) :
  trace answer (get_recommendations seed_track_ids limit)
  = [Event (sp_recommendations (parse_track_ids seed_track_ids)
                               (Z.min limit 100))
       (answer _ (sp_recommendations (parse_track_ids seed_track_ids)
                                     (Z.min limit 100)))].
Proof.
  unfold get_recommendations.
  destruct (parse_track_ids seed_track_ids) as [|tid tids] eqn:E.
  - now apply parse_track_ids_not_nil in E.
  - all_cases; reflexivity.
Qed.

(** ** Seeds as they are written *)

Lemma glue_no_comma (p : padded_id) :
  well_padded p = true -> has_char "," (glue p) = false.
Proof.
  unfold well_padded, glue. intros H.
  apply andb_true_iff in H as [H Hc]. apply andb_true_iff in H as [H _].
  apply andb_true_iff in H as [Hb Ha]. apply negb_true_iff in Hc.
  now rewrite !has_char_app, Hc, (blank_no_comma _ Hb), (blank_no_comma _ Ha).
Qed.

Lemma strip_glue (p : padded_id) :
  well_padded p = true -> strip (glue p) = seed_id p.
Proof.
  unfold well_padded, glue. intros H.
  apply andb_true_iff in H as [H _]. apply andb_true_iff in H as [H Ht].
  apply andb_true_iff in H as [Hb Ha]. now apply strip_padded.
Qed.

(** Parsing undoes the writing. *)
Lemma parse_padded (padded : list padded_id) :
  padded <> [] -> Forall (fun p => well_padded p = true) padded ->
  parse_track_ids (String.concat "," (map glue padded))
  = firstn 5 (map seed_id padded).
Proof.
  intros Hne Hall. unfold parse_track_ids. rewrite split_concat.
  - rewrite map_map. f_equal. apply map_ext_in. intros p Hin.
    apply strip_glue. now apply (proj1 (Forall_forall _ _) Hall).
  - now destruct padded.
  - apply Forall_forall. intros piece Hin.
    apply in_map_iff in Hin as [p [<- Hin]].
    apply glue_no_comma. now apply (proj1 (Forall_forall _ _) Hall).
Qed.

Lemma pieces_are_padded (pieces : list string) :
  Forall (fun piece => has_char "," piece = false) pieces ->
  exists padded,
    Forall (fun p => well_padded p = true) padded /\ map glue padded = pieces.
Proof.
  induction 1 as [|piece pieces Hpiece _ [padded [Hall Hmap]]].
  - now exists [].
  - destruct (strip_decompose piece) as [l [r [Hl [Hr Heq]]]].
    exists ({| pad_before := l; seed_id := strip piece; pad_after := r |}
            :: padded).
    split.
    + constructor; [|exact Hall]. unfold well_padded.
      cbn [pad_before seed_id pad_after].
      now rewrite Hl, Hr, strip_trimmed, (has_char_strip _ _ Hpiece).
    + cbn [map]. unfold glue at 1. cbn [pad_before seed_id pad_after].
      now rewrite <- Heq, Hmap.
Qed.

(** Every input is a list of padded ids with commas between them. *)
Lemma every_input_is_padded (seed_track_ids : string) :
  exists padded,
    padded <> []
    /\ Forall (fun p => well_padded p = true) padded
    /\ seed_track_ids = String.concat "," (map glue padded).
Proof.
  destruct (pieces_are_padded (split "," seed_track_ids))
    as [padded [Hall Hmap]].
  - apply Forall_forall. intros piece. apply split_pieces_no_sep.
  - exists padded. split; [|split; [exact Hall|]].
    + intros ->. symmetry in Hmap. now apply split_not_nil in Hmap.
    + now rewrite Hmap, concat_split.
Qed.

(** C9: every string [seed_track_ids] is a list of ids with commas between
    them, each id with white space around it; and however many ids are
    written, the one call [get_recommendations] makes passes as seeds the
    first five of them, without the white space: at most five ids, what
    is written after the fifth being dropped. *)
Theorem at_most_five_seeds (seed_track_ids : string) (limit : Z) :
  (exists padded,
     padded <> []
     /\ Forall (fun p => well_padded p = true) padded
     /\ seed_track_ids = String.concat "," (map glue padded))
  /\ forall padded,
       padded <> [] ->
       Forall (fun p => well_padded p = true) padded ->
       seed_track_ids = String.concat "," (map glue padded) ->
       trace answer (get_recommendations seed_track_ids limit)
       = [Event (sp_recommendations (firstn 5 (map seed_id padded))
                                    (Z.min limit 100))
            (answer _ (sp_recommendations (firstn 5 (map seed_id padded))
                                          (Z.min limit 100)))]
       /\ (List.length (firstn 5 (map seed_id padded)) <= 5)%nat
       /\ (List.length (firstn 5 (map seed_id padded))
           = Nat.min 5 (List.length padded))%nat.
Proof.
  split; [apply every_input_is_padded|].
  intros padded Hne Hall ->. split; [|split].
  - now rewrite recommendations_trace, parse_padded.
  - apply firstn_le_length.
  - now rewrite length_firstn, length_map.
Qed.

(** The report of [get_recommendations] starts with what it had when the
    loop began. *)
Lemma append_recommendations_grows (tracks : list value) :
  forall output i s,
    append_recommendations output i tracks = Returns s ->
    exists rest, s = output ++ rest.
Proof.
  induction tracks as [|t tracks IH]; intros output i s; cbn.
  - intros [= <-]. exists "". now rewrite append_nil_r.
  - repeat match goal with
           | |- context [obind ?x _] =>
               destruct x; cbn [obind]; [|discriminate]
           end.
    intros H. apply IH in H as [rest ->].
    eexists. repeat rewrite append_assoc. reflexivity.
Qed.

(** C10: for every string [seed_track_ids] the parsed list of track ids is
    not empty, so [get_recommendations] never returns
    "Please provide at least one track ID"; an input that is empty or all
    white space is parsed to one blank id, which is passed to the API. *)
Theorem seeds_are_never_missing (seed_track_ids : string) (limit : Z) :
  parse_track_ids seed_track_ids <> []
  /\ result answer (get_recommendations seed_track_ids limit)
     <> Returns "Please provide at least one track ID"
  /\ (all_chars isspace seed_track_ids = true ->
      trace answer (get_recommendations seed_track_ids limit)
      = [Event (sp_recommendations [""] (Z.min limit 100))
           (answer _ (sp_recommendations [""] (Z.min limit 100)))]).
Proof.
  split; [apply parse_track_ids_not_nil | split].
  - unfold get_recommendations.
    destruct (parse_track_ids seed_track_ids) as [|tid tids] eqn:E;
      [now apply parse_track_ids_not_nil in E|].
    all_cases;
      repeat match goal with
             | H : obind ?x _ = Returns _ |- _ =>
                 destruct x; cbn [obind] in H; [|discriminate H]
             end;
      try match goal with
          | H : append_recommendations _ _ _ = Returns _ |- _ =>
              apply append_recommendations_grows in H as [rest ->]
          end;
      try match goal with
          | |- context [on_error ?e] => destruct e
          end;
      cbn; discriminate.
  - intros Hblank. rewrite recommendations_trace.
    assert (E : parse_track_ids seed_track_ids = [""]).
    { unfold parse_track_ids.
      rewrite (split_no_sep _ _ (blank_no_comma _ Hblank)). cbn.
      now rewrite (strip_blank _ Hblank). }
    now rewrite E.
Qed.

(** ** Every tool returns a text *)

Lemma append_tracks_grows (tracks : list track_info) :
  forall output i, exists rest, append_tracks output i tracks = output ++ rest.
Proof.
  induction tracks as [|t tracks IH]; intros output i; cbn.
  - exists "". now rewrite append_nil_r.
  - destruct (IH (output ++ track_lines i t) (S i)) as [rest ->].
    rewrite append_assoc. eauto.
Qed.

Lemma append_top_tracks_grows (tracks : list value) :
  forall output i s,
    append_top_tracks output i tracks = Returns s ->
    exists rest, s = output ++ rest.
Proof.
  induction tracks as [|t tracks IH]; intros output i s; cbn.
  - intros [= <-]. exists "". now rewrite append_nil_r.
  - repeat match goal with
           | |- context [obind ?x _] =>
               destruct x; cbn [obind]; [|discriminate]
           end.
    intros H. apply IH in H as [rest ->].
    eexists. repeat rewrite append_assoc. reflexivity.
Qed.

(** Takes a report apart, one subscript or format at a time. *)
Ltac open_report H :=
  repeat match type of H with
         | context [obind ?x _] =>
             destruct x; cbn [obind] in H; [|discriminate H]
         | context [if ?b then _ else _] => destruct b
         end.

Lemma artist_report_text (artist_details top_tracks : value) (s : string) :
  artist_report artist_details top_tracks = Returns s -> s <> "".
Proof.
  unfold artist_report. intros H. open_report H;
    apply append_top_tracks_grows in H as [rest ->]; cbn; discriminate.
Qed.

Lemma features_report_text (features track : value) (s : string) :
  features_report features track = Returns s -> s <> "".
Proof.
  unfold features_report, feature_fixed. intros H.
  open_report H; injection H as <-; cbn; discriminate.
Qed.

Lemma on_error_text (e : exn) : on_error e <> "".
Proof. destruct e; cbn; discriminate. Qed.

(** Whatever the API does, every tool returns a string, and the string is
    not empty. *)
Lemma serve_returns_text (r : request) :
  exists s, result answer (serve r) = Returns s /\ s <> "".
Proof.
  destruct r; cbn [serve];
    unfold search_tracks, get_artist_info, get_audio_features,
      get_recommendations;
    all_cases;
    (eexists; split; [reflexivity|]);
    try apply on_error_text;
    try (cbn; discriminate);
    try match goal with
        | H : artist_report _ _ = Returns _ |- _ =>
            exact (artist_report_text _ _ _ H)
        | H : features_report _ _ = Returns _ |- _ =>
            exact (features_report_text _ _ _ H)
        | |- append_tracks ?o ?i ?l <> _ =>
            destruct (append_tracks_grows l o i) as [rest ->]; cbn; discriminate
        | H : Returns (append_tracks ?o ?i ?l) = Returns _ |- _ =>
            destruct (append_tracks_grows l o i) as [rest Hrest];
            rewrite Hrest in H; injection H as <-; cbn; discriminate
        | H : obind _ _ = Returns _ |- _ =>
            open_report H;
            apply append_recommendations_grows in H as [rest ->];
            cbn; discriminate
        end.
Qed.

(** ** Well-formed answers, end to end *)

(** Equal texts, up to the grouping of their pieces. *)
Ltac same_text :=
  repeat first [ rewrite append_assoc | progress cbn [append nl] ];
  reflexivity.

Lemma omap_map {A B X : Type} (f : A -> outcome B) (g : X -> A) (h : X -> B)
  (l : list X) :
  (forall x, f (g x) = Returns (h x)) ->
  omap f (map g l) = Returns (map h l).
Proof.
  intros H. induction l as [|x l IH]; cbn; [reflexivity|].
  now rewrite H, IH.
Qed.

(** The first element that fails ends the comprehension. *)
Lemma omap_fails {A B X : Type} (f : A -> outcome B) (g : X -> A) (h : X -> B)
  (good : list X) (bad : A) (rest : list A) (e : exn) :
  (forall x, f (g x) = Returns (h x)) -> f bad = Raises e ->
  omap f (map g good ++ bad :: rest) = Raises e.
Proof.
  intros Hg Hb. induction good as [|x l IH]; cbn.
  - now rewrite Hb.
  - now rewrite Hg, IH.
Qed.

Lemma make_track_info_data (t : track_data) :
  make_track_info (track_data_json t) = Returns (track_data_info t).
Proof.
  destruct t as [name artists album id uri [preview|]];
    unfold make_track_info, track_data_json, track_data_info, artists_json;
    cbn [getitem get_method dict_lookup String.eqb Ascii.eqb Bool.eqb obind
         app td_name td_artists td_album td_id td_uri td_preview];
    rewrite artist_names_json; cbn [obind]; rewrite join_list_strings;
    reflexivity.
Qed.

Lemma append_tracks_numbered (tracks : list track_info) :
  forall output i,
    append_tracks output i tracks = output ++ numbered_tracks i tracks.
Proof.
  induction tracks as [|t tracks IH]; intros output i; cbn.
  - now rewrite append_nil_r.
  - now rewrite IH, append_assoc.
Qed.

(** The decimal numeral of an integer, as the Standard Library prints
    it. *)
Local Notation "'decimal' n" :=
  (NilZero.string_of_int (Z.to_int n)) (at level 10, n at level 9).

Lemma numbered_tracks_text (tracks : list track_data) :
  Forall (fun t => plain_preview (td_preview t) = true) tracks ->
  forall i,
    numbered_tracks i (map track_data_info tracks)
    = String.concat ""
        (map (fun entry : nat * track_data =>
                let (i, t) := entry in
                decimal (Z.of_nat i) ++ ". " ++ td_name t ++ " by "
                ++ String.concat ", " (td_artists t) ++ nl
                ++ "   Album: " ++ td_album t ++ nl
                ++ "   Track ID: " ++ td_id t ++ nl
                ++ "   URI: " ++ td_uri t ++ nl
                ++ "   Preview: "
                ++ match td_preview t with
                   | None => "N/A"
                   | Some (VStr url) => url
                   | Some _ => "None"
                   end ++ nl ++ nl)
           (combine (seq i (List.length tracks)) tracks)).
Proof.
  induction 1 as [|t tracks Hplain _ IH]; intros i; [reflexivity|].
  cbn [map numbered_tracks List.length seq combine].
  rewrite concat_cons, IH. f_equal.
  unfold track_lines, track_data_info, nat_str, int_str.
  cbn [ti_name ti_artist ti_album ti_uri ti_id ti_preview_url py_str].
  rewrite join_concat.
  destruct (td_preview t) as [[| | | | | |]|]; try discriminate Hplain;
    reflexivity.
Qed.

(** Every track of a well-formed search answer is listed: the heading
    gives their number and the entries follow in the order of the answer,
    numbered from 1 in decimal, each with the name, the artists' names
    with ", " between them, the album, the id, the URI and the preview:
    the URL, "None" for [null], "N/A" when the answer has no preview entry
    for the track. *)
Theorem search_lists_every_track (query : string) (limit : Z)
  (tracks : list track_data) :
  tracks <> [] ->
  Forall (fun t => plain_preview (td_preview t) = true) tracks ->
  answer _ (sp_search query "track" (Z.min limit 50))
  = Returns (search_json "tracks" (map track_data_json tracks)) ->
  result answer (search_tracks query limit)
  = Returns
      ("Found " ++ decimal (Z.of_nat (List.length tracks)) ++ " tracks:"
       ++ nl ++ nl
       ++ String.concat ""
            (map (fun entry : nat * track_data =>
                    let (i, t) := entry in
                    decimal (Z.of_nat i) ++ ". " ++ td_name t ++ " by "
                    ++ String.concat ", " (td_artists t) ++ nl
                    ++ "   Album: " ++ td_album t ++ nl
                    ++ "   Track ID: " ++ td_id t ++ nl
                    ++ "   URI: " ++ td_uri t ++ nl
                    ++ "   Preview: "
                    ++ match td_preview t with
                       | None => "N/A"
                       | Some (VStr url) => url
                       | Some _ => "None"
                       end ++ nl ++ nl)
               (combine (seq 1 (List.length tracks)) tracks))).
Proof.
  intros Hne Hplain Hanswer. unfold search_tracks. unroll. rewrite Hanswer.
  destruct tracks as [|t tracks]; [contradiction|].
  cbn [search_json no_items truthy negb get_method getitem dict_lookup
       String.eqb Ascii.eqb Bool.eqb obind map].
  unroll.
  cbn [search_json getitem dict_lookup String.eqb Ascii.eqb Bool.eqb obind
       iterate].
  change (track_data_json t :: map track_data_json tracks)
    with (map track_data_json (t :: tracks)).
  rewrite (omap_map _ _ track_data_info _ make_track_info_data).
  cbn [result bind pure].
  rewrite append_tracks_numbered, length_map, numbered_tracks_text
    by assumption.
  unfold nat_str, int_str. now rewrite !append_assoc.
Qed.

(** One track without a name spoils the listing: whatever comes before
    and after it in the answer, the tool returns the one-line error and
    lists nothing. *)
Theorem nameless_track_spoils_listing (query : string) (limit : Z)
  (good : list track_data) (d : list (string * value)) (rest : list value) :
  dict_lookup d "name" = None ->
  answer _ (sp_search query "track" (Z.min limit 50))
  = Returns (search_json "tracks"
               (map track_data_json good ++ VDict d :: rest)) ->
  result answer (search_tracks query limit)
  = Returns "Unexpected error: 'name'".
Proof.
  intros Hname Hanswer. unfold search_tracks. unroll. rewrite Hanswer.
  assert (Hitems : truthy (VList (map track_data_json good ++ VDict d :: rest))
                   = true) by now destruct good.
  cbn [search_json no_items truthy negb get_method getitem dict_lookup
       String.eqb Ascii.eqb Bool.eqb obind].
  cbn [truthy] in Hitems. rewrite Hitems. cbn [negb].
  unroll.
  cbn [search_json getitem dict_lookup String.eqb Ascii.eqb Bool.eqb obind
       iterate].
  rewrite (omap_fails _ _ track_data_info good (VDict d) rest
             (PyError "KeyError" "'name'") make_track_info_data).
  - reflexivity.
  - unfold make_track_info. cbn [getitem]. now rewrite Hname.
Qed.

Lemma join_value_strings (sep : string) (l : list string) :
  join_value sep (VList (map VStr l)) = Returns (join sep l).
Proof. unfold join_value. cbn [iterate]. apply join_list_strings. Qed.

Lemma append_top_tracks_numbered (tracks : list (string * string)) :
  forall output i,
    append_top_tracks output i (map top_track_json tracks)
    = Returns (output ++ numbered_top_tracks i tracks).
Proof.
  induction tracks as [|t tracks IH]; intros output i; cbn.
  - now rewrite append_nil_r.
  - rewrite IH. f_equal. same_text.
Qed.

Lemma artist_report_text_of (a : artist_data) (tracks : list (string * string)) :
  artist_report (artist_json a) (top_tracks_json tracks)
  = Returns (artist_text a tracks).
Proof.
  destruct a as [id name popularity followers [|g genres] uri];
    unfold artist_report, artist_json, top_tracks_json, artist_text;
    cbn [getitem dict_lookup String.eqb Ascii.eqb Bool.eqb obind
         format_grouped py_str py_repr slice_to iterate truthy map
         ad_name ad_popularity ad_followers ad_genres ad_uri];
    try (change (VStr g :: map VStr genres) with (map VStr (g :: genres));
         rewrite join_value_strings; cbn [obind]);
    rewrite firstn_map, append_top_tracks_numbered; f_equal; same_text.
Qed.

Lemma numbered_top_tracks_text (n : nat) :
  forall (tracks : list (string * string)) i,
    numbered_top_tracks i (firstn n tracks)
    = String.concat ""
        (map (fun entry : nat * (string * string) =>
                let (i, t) := entry in
                decimal (Z.of_nat i) ++ ". " ++ fst t ++ " - " ++ snd t ++ nl)
           (combine (seq i n) tracks)).
Proof.
  induction n as [|n IH]; intros [|t tracks] i; try reflexivity.
  cbn [firstn numbered_top_tracks seq combine map].
  rewrite concat_cons, IH. unfold nat_str, int_str. same_text.
Qed.

(** A well-formed artist, end to end: the tool searches for one artist,
    looks up the details and the top tracks of the first hit by its id,
    and reports the name, the popularity in decimal, the followers in
    decimal with a comma between the groups of three digits, the genres
    with ", " between them ("N/A" when there are none) and the URI,
    followed by the first five top tracks, numbered from 1. *)
Theorem artist_is_reported (artist_name : string) (a : artist_data)
  (others : list value) (tracks : list (string * string)) :
  tracks <> [] ->
  str_digits_ok (ad_popularity a) = true ->
  (0 <= ad_followers a)%Z ->
  str_digits_ok (ad_followers a) = true ->
  answer _ (sp_search artist_name "artist" 1)
  = Returns (search_json "artists" (artist_hit_json a :: others)) ->
  answer _ (sp_artist (VStr (ad_id a))) = Returns (artist_json a) ->
  answer _ (sp_artist_top_tracks (VStr (ad_id a)))
  = Returns (top_tracks_json tracks) ->
  exists group groups,
    String.concat "" (group :: groups) = decimal (ad_followers a)
    /\ (1 <= String.length group <= 3)%nat
    /\ Forall (fun g => String.length g = 3%nat) groups
    /\ run answer (get_artist_info artist_name)
       = ([ Event (sp_search artist_name "artist" 1)
              (Returns (search_json "artists" (artist_hit_json a :: others)));
            Event (sp_artist (VStr (ad_id a))) (Returns (artist_json a));
            Event (sp_artist_top_tracks (VStr (ad_id a)))
              (Returns (top_tracks_json tracks)) ],
          Returns
            ("Artist: " ++ ad_name a ++ nl
             ++ "Popularity: " ++ decimal (ad_popularity a) ++ "/100" ++ nl
             ++ "Followers: " ++ String.concat "," (group :: groups) ++ nl
             ++ "Genres: " ++ match ad_genres a with
                              | [] => "N/A"
                              | genres => String.concat ", " genres
                              end ++ nl
             ++ "Spotify URI: " ++ ad_uri a ++ nl ++ nl
             ++ "Top Tracks:" ++ nl
             ++ String.concat ""
                  (map (fun entry : nat * (string * string) =>
                          let (i, t) := entry in
                          decimal (Z.of_nat i) ++ ". " ++ fst t ++ " - "
                          ++ snd t ++ nl)
                     (combine (seq 1 5) tracks)))).
Proof.
  intros Hne _ Hfollowers _ Hsearch Hartist Htop.
  destruct (int_grouped_groups (ad_followers a) Hfollowers)
    as [group [groups [Hgrouped [Hdigits [Hfirst Hrest]]]]].
  exists group, groups. repeat (split; [assumption|]).
  assert (Hid : (sec <~ getitem (search_json "artists"
                                   (artist_hit_json a :: others)) "artists" ;;
                 items <~ getitem sec "items" ;;
                 artist <~ getfirst items ;;
                 getitem artist "id") = Returns (VStr (ad_id a)))
    by reflexivity.
  assert (Hdetails : truthy (artist_json a) = true) by reflexivity.
  assert (Htracks : (if negb (truthy (top_tracks_json tracks))
                     then Returns true
                     else found <~ get_method (top_tracks_json tracks)
                                     "tracks" VNone ;;
                          Returns (negb (truthy found))) = Returns false)
    by now destruct tracks.
  unfold run, get_artist_info. f_equal.
  - unroll. rewrite Hsearch. cbn [app]. f_equal.
    change (no_items "artists" _) with (Returns (F := F) false).
    cbn [trace bind pure]. unroll. rewrite Hid. cbn [app trace bind pure].
    unroll. rewrite Hartist, Hdetails. cbn [app negb]. f_equal.
    unroll. rewrite Htop. cbn [app]. f_equal.
    unroll. rewrite Htracks. cbn [app trace bind pure]. now unroll.
  - unroll. rewrite Hsearch.
    change (no_items "artists" _) with (Returns (F := F) false).
    cbn [result bind pure]. unroll. rewrite Hid. cbn [result bind pure].
    unroll. rewrite Hartist, Hdetails. cbn [negb].
    unroll. rewrite Htop.
    unroll. rewrite Htracks. cbn [result bind pure]. unroll.
    rewrite artist_report_text_of. f_equal. unfold artist_text.
    rewrite Hgrouped, numbered_top_tracks_text. unfold int_str.
    now destruct (ad_genres a) as [|g genres]; rewrite ?join_concat.
Qed.

Lemma append_recommendations_numbered (tracks : list recommended) :
  forall output i,
    append_recommendations output i (map recommended_json tracks)
    = Returns (output ++ numbered_recommendations i tracks).
Proof.
  induction tracks as [|t tracks IH]; intros output i.
  - cbn. now rewrite append_nil_r.
  - destruct t as [name artists album id popularity].
    cbn [map append_recommendations recommended_json artists_json getitem
         dict_lookup String.eqb Ascii.eqb Bool.eqb obind
         rc_name rc_artists rc_album rc_id rc_popularity].
    unfold artists_json.
    rewrite artist_names_json. cbn [obind]. rewrite join_list_strings.
    cbn [obind]. rewrite IH. f_equal.
    cbn [numbered_recommendations py_str py_repr
         rc_name rc_artists rc_album rc_id rc_popularity].
    same_text.
Qed.

Lemma numbered_recommendations_text (tracks : list recommended) :
  forall i,
    numbered_recommendations i tracks
    = String.concat ""
        (map (fun entry : nat * recommended =>
                let (i, t) := entry in
                decimal (Z.of_nat i) ++ ". " ++ rc_name t ++ " by "
                ++ String.concat ", " (rc_artists t) ++ nl
                ++ "   Album: " ++ rc_album t ++ nl
                ++ "   Track ID: " ++ rc_id t ++ nl
                ++ "   Popularity: " ++ decimal (rc_popularity t) ++ "/100"
                ++ nl ++ nl)
           (combine (seq i (List.length tracks)) tracks)).
Proof.
  induction tracks as [|t tracks IH]; intros i; [reflexivity|].
  cbn [numbered_recommendations List.length seq combine map].
  rewrite concat_cons, IH, join_concat. unfold nat_str, int_str. same_text.
Qed.

(** Well-formed recommendations, end to end: when the seeds are written
    as ids with commas between them and white space around them, the
    first five ids are what the API is asked for, the heading gives their
    number, and every recommended track follows in the order of the
    answer, numbered from 1 in decimal, with its name, its artists' names
    with ", " between them, its album, its id and its popularity. *)
Theorem recommendations_are_listed (padded : list padded_id) (limit : Z)
  (tracks : list recommended) :
  padded <> [] ->
  Forall (fun p => well_padded p = true) padded ->
  tracks <> [] ->
  Forall (fun t => str_digits_ok (rc_popularity t) = true) tracks ->
  answer _ (sp_recommendations (firstn 5 (map seed_id padded))
                               (Z.min limit 100))
  = Returns (recommendations_json tracks) ->
  result answer
    (get_recommendations (String.concat "," (map glue padded)) limit)
  = Returns
      ("Recommendations based on "
       ++ decimal (Z.of_nat (Nat.min 5 (List.length padded)))
       ++ " seed track(s):" ++ nl ++ nl
       ++ String.concat ""
            (map (fun entry : nat * recommended =>
                    let (i, t) := entry in
                    decimal (Z.of_nat i) ++ ". " ++ rc_name t ++ " by "
                    ++ String.concat ", " (rc_artists t) ++ nl
                    ++ "   Album: " ++ rc_album t ++ nl
                    ++ "   Track ID: " ++ rc_id t ++ nl
                    ++ "   Popularity: " ++ decimal (rc_popularity t)
                    ++ "/100" ++ nl ++ nl)
               (combine (seq 1 (List.length tracks)) tracks))).
Proof.
  intros Hpadded Hwell Hne _ Hanswer. unfold get_recommendations.
  rewrite (parse_padded _ Hpadded Hwell).
  assert (Hcount : List.length (firstn 5 (map seed_id padded))
                   = Nat.min 5 (List.length padded))
    by now rewrite length_firstn, length_map.
  destruct (firstn 5 (map seed_id padded)) as [|tid tids] eqn:E.
  { destruct padded as [|p padded]; [contradiction | discriminate E]. }
  unroll. rewrite Hanswer.
  destruct tracks as [|t tracks]; [contradiction|].
  cbn [recommendations_json truthy negb getitem dict_lookup String.eqb
       Ascii.eqb Bool.eqb obind map result bind pure].
  unroll.
  cbn [recommendations_json getitem dict_lookup String.eqb Ascii.eqb
       Bool.eqb obind iterate].
  change (recommended_json t :: map recommended_json tracks)
    with (map recommended_json (t :: tracks)).
  rewrite append_recommendations_numbered, numbered_recommendations_text,
    Hcount.
  unfold nat_str, int_str. f_equal. same_text.
Qed.

(** ** How many calls a tool makes *)

Ltac still_going :=
  match goal with
  | Hin : In _ _ |- _ =>
      cbn [In removelast] in Hin;
      repeat (destruct Hin as [<-|Hin]; [|]); try contradiction
  end;
  unfold went_on; cbn [raised];
  match goal with
  | |- negb (came_back_empty ?ev) = true =>
      destruct (came_back_empty ev) eqn:Hev; [exfalso|reflexivity];
      cbn [came_back_empty empty_answer append] in Hev;
      first [ discriminate Hev
            | congruence
            | by_condition no_items_empty Hev
            | by_condition top_tracks_empty Hev
            | by_condition recommendations_empty Hev
            | by_condition features_empty Hev ]
  end.

(** Every tool makes at least one call to the API and at most three, and
    it stops calling at the first call that raises or comes back empty:
    each call but the last was answered, with a result that is not
    empty. *)
Theorem tools_stop_at_first_failure (r : request) :
  (1 <= List.length (trace answer (serve r)) <= 3)%nat
  /\ forall ev, In ev (removelast (trace answer (serve r))) ->
                went_on ev = true.
Proof.
  destruct r; cbn [serve];
    unfold search_tracks, get_artist_info, get_audio_features,
      get_recommendations.
  4: destruct (parse_track_ids seed_track_ids) as [|tid tids] eqn:E;
       [now apply parse_track_ids_not_nil in E|].
  all: all_cases; (split; [cbn [List.length]; lia | intros ev Hin]);
    still_going.
Qed.

(** ** The seeds that are passed on *)

Lemma In_firstn {A : Type} (n : nat) (l : list A) (x : A) :
  In x (firstn n l) -> In x l.
Proof.
  revert l. induction n as [|n IH]; intros [|a l]; cbn; try tauto.
  intros [->|H]; [now left | right; now apply IH].
Qed.

(** Every seed id passed to the API is free of commas and of surrounding
    white space: it is a piece of the input between two commas, and
    stripping it again changes nothing. *)
Theorem seeds_are_clean (seed_track_ids id : string) :
  In id (parse_track_ids seed_track_ids) ->
  has_char "," id = false /\ strip id = id
  /\ exists piece, In piece (split "," seed_track_ids) /\ id = strip piece.
Proof.
  unfold parse_track_ids. intros Hin. apply In_firstn in Hin.
  apply in_map_iff in Hin as (piece & <- & Hpiece).
  split; [|split].
  - apply has_char_strip. eapply split_pieces_no_sep; eassumption.
  - apply strip_idem.
  - eauto.
Qed.

End ServerFacts.

(** C2 on a run: the API is down, [search_tracks] answers with its
    "Unexpected error" text. *)
Lemma api_failure_is_reported_witness :
  In (Event (Server.sp_search "Queen" "track" 10)
        (Raises (PyError "ConnectionError" "connection refused")))
     (trace api_down (Server.serve (Server.SearchTracks "Queen" 10)))
  /\ raised (Event (Server.sp_search "Queen" "track" 10)
               (Raises (PyError "ConnectionError" "connection refused")))
     = Some (PyError "ConnectionError" "connection refused")
  /\ result api_down (Server.serve (Server.SearchTracks "Queen" 10))
     = Returns "Unexpected error: connection refused"
  /\ contains "error" "Unexpected error: connection refused" = true.
Proof.
  assert (Hin : In (Event (Server.sp_search "Queen" "track" 10)
                      (Raises (PyError "ConnectionError" "connection refused")))
                   (trace api_down
                      (Server.serve (Server.SearchTracks "Queen" 10))))
    by (left; reflexivity).
  split; [exact Hin | split; [reflexivity|]].
  exact (api_failure_is_reported api_down _ _ _ Hin eq_refl).
Defined.



(** C6 on the run the claim names: "Bohemian Rhapsody" with [limit = 1]. *)
Lemma one_track_is_listed_witness :
  api_finds_one _ (Server.sp_search "Bohemian Rhapsody" "track" (Z.min 1 50))
  = Returns (Server.search_json "tracks" [bohemian_rhapsody])
  /\ exists text,
       result api_finds_one (Server.search_tracks "Bohemian Rhapsody" 1)
       = Returns text
       /\ text = "Found 1 tracks:" ++ nl ++ nl
                 ++ "1. Bohemian Rhapsody by Queen" ++ nl
                 ++ "   Album: A Night at the Opera" ++ nl
                 ++ "   Track ID: 4u7EnebtmKWzUH433cf5Qv" ++ nl
                 ++ "   URI: spotify:track:4u7EnebtmKWzUH433cf5Qv" ++ nl
                 ++ "   Preview: None" ++ nl ++ nl
       /\ forall part,
            In part ["1."; "Bohemian Rhapsody"; "A Night at the Opera";
                     "4u7EnebtmKWzUH433cf5Qv";
                     "spotify:track:4u7EnebtmKWzUH433cf5Qv"; "Queen"] ->
            exists before after, text = before ++ part ++ after.
Proof.
  split; [reflexivity|].
  exact (one_track_is_listed api_finds_one "Bohemian Rhapsody" 1
           "Bohemian Rhapsody" "A Night at the Opera"
           "4u7EnebtmKWzUH433cf5Qv" "spotify:track:4u7EnebtmKWzUH433cf5Qv"
           ["Queen"] None eq_refl).
Defined.

(** A search that finds two tracks, the second without preview entry. *)
Lemma search_lists_every_track_witness :
  two_tracks <> []
  /\ Forall (fun t => Server.plain_preview (Server.td_preview t) = true)
       two_tracks
  /\ api_demo _ (Server.sp_search "Queen" "track" (Z.min 10 50))
     = Returns (Server.search_json "tracks"
                  (map Server.track_data_json two_tracks))
  /\ result api_demo (Server.search_tracks "Queen" 10)
     = Returns ("Found 2 tracks:" ++ nl ++ nl
                ++ "1. Bohemian Rhapsody by Queen" ++ nl
                ++ "   Album: A Night at the Opera" ++ nl
                ++ "   Track ID: 4u7EnebtmKWzUH433cf5Qv" ++ nl
                ++ "   URI: spotify:track:4u7EnebtmKWzUH433cf5Qv" ++ nl
                ++ "   Preview: None" ++ nl ++ nl
                ++ "2. Under Pressure by Queen, David Bowie" ++ nl
                ++ "   Album: Hot Space" ++ nl
                ++ "   Track ID: 2fuCquhmrzHpu5xcA1ci9x" ++ nl
                ++ "   URI: spotify:track:2fuCquhmrzHpu5xcA1ci9x" ++ nl
                ++ "   Preview: N/A" ++ nl ++ nl).
Proof.
  assert (Hne : two_tracks <> []) by discriminate.
  assert (Hplain : Forall (fun t => Server.plain_preview (Server.td_preview t)
                                    = true) two_tracks)
    by (repeat constructor).
  split; [exact Hne | split; [exact Hplain | split; [reflexivity|]]].
  exact (search_lists_every_track api_demo "Queen" 10 two_tracks Hne Hplain
           eq_refl).
Defined.

(** A search whose third hit has no name. *)
Lemma nameless_track_spoils_listing_witness :
  dict_lookup [("id", VStr "0")] "name" = None
  /\ api_nameless _ (Server.sp_search "Queen" "track" (Z.min 10 50))
     = Returns (Server.search_json "tracks"
                  (map Server.track_data_json two_tracks
                   ++ VDict [("id", VStr "0")] :: [])%list)
  /\ result api_nameless (Server.search_tracks "Queen" 10)
     = Returns "Unexpected error: 'name'".
Proof.
  split; [reflexivity | split; [reflexivity|]].
  exact (nameless_track_spoils_listing api_nameless "Queen" 10 two_tracks
           [("id", VStr "0")] [] eq_refl eq_refl).
Defined.

(** Queen, with six top tracks of which five are listed. *)
Lemma artist_is_reported_witness :
  queen_top_tracks <> []
  /\ str_digits_ok (Server.ad_popularity queen) = true
  /\ (0 <= Server.ad_followers queen)%Z
  /\ str_digits_ok (Server.ad_followers queen) = true
  /\ api_demo _ (Server.sp_search "Queen" "artist" 1)
     = Returns (Server.search_json "artists" [Server.artist_hit_json queen])
  /\ api_demo _ (Server.sp_artist (VStr (Server.ad_id queen)))
     = Returns (Server.artist_json queen)
  /\ api_demo _ (Server.sp_artist_top_tracks (VStr (Server.ad_id queen)))
     = Returns (Server.top_tracks_json queen_top_tracks)
  /\ (exists group groups,
        String.concat "" (group :: groups) = "52345678"
        /\ (1 <= String.length group <= 3)%nat
        /\ Forall (fun g => String.length g = 3%nat) groups
        /\ run api_demo (Server.get_artist_info "Queen")
           = ([ Event (Server.sp_search "Queen" "artist" 1)
                  (Returns (Server.search_json "artists"
                              [Server.artist_hit_json queen]));
                Event (Server.sp_artist (VStr (Server.ad_id queen)))
                  (Returns (Server.artist_json queen));
                Event (Server.sp_artist_top_tracks
                         (VStr (Server.ad_id queen)))
                  (Returns (Server.top_tracks_json queen_top_tracks)) ],
              Returns
                ("Artist: Queen" ++ nl
                 ++ "Popularity: 82/100" ++ nl
                 ++ "Followers: " ++ String.concat "," (group :: groups) ++ nl
                 ++ "Genres: classic rock, glam rock, rock" ++ nl
                 ++ "Spotify URI: spotify:artist:1dfeR4HaWDbWqFHLkxsg1d"
                 ++ nl ++ nl
                 ++ "Top Tracks:" ++ nl
                 ++ "1. Bohemian Rhapsody - A Night at the Opera" ++ nl
                 ++ "2. Don't Stop Me Now - Jazz" ++ nl
                 ++ "3. Another One Bites the Dust - The Game" ++ nl
                 ++ "4. Under Pressure - Hot Space" ++ nl
                 ++ "5. We Will Rock You - News of the World" ++ nl)))
  /\ result api_demo (Server.get_artist_info "Queen")
     = Returns ("Artist: Queen" ++ nl
                ++ "Popularity: 82/100" ++ nl
                ++ "Followers: 52,345,678" ++ nl
                ++ "Genres: classic rock, glam rock, rock" ++ nl
                ++ "Spotify URI: spotify:artist:1dfeR4HaWDbWqFHLkxsg1d"
                ++ nl ++ nl
                ++ "Top Tracks:" ++ nl
                ++ "1. Bohemian Rhapsody - A Night at the Opera" ++ nl
                ++ "2. Don't Stop Me Now - Jazz" ++ nl
                ++ "3. Another One Bites the Dust - The Game" ++ nl
                ++ "4. Under Pressure - Hot Space" ++ nl
                ++ "5. We Will Rock You - News of the World" ++ nl).
Proof.
  assert (Hne : queen_top_tracks <> []) by discriminate.
  assert (Hfollowers : (0 <= Server.ad_followers queen)%Z) by (cbn; lia).
  split; [exact Hne|]. split; [reflexivity|]. split; [exact Hfollowers|].
  do 4 (split; [reflexivity|]).
  split; [|reflexivity].
  exact (artist_is_reported api_demo "Queen" queen [] queen_top_tracks
           Hne eq_refl Hfollowers eq_refl eq_refl eq_refl eq_refl).
Defined.

(** Two recommendations for seven seeds as written, of which five are
    passed on. *)
Lemma recommendations_are_listed_witness :
  seven_seeds <> []
  /\ Forall (fun p => Server.well_padded p = true) seven_seeds
  /\ two_recommendations <> []
  /\ Forall (fun t => str_digits_ok (Server.rc_popularity t) = true)
       two_recommendations
  /\ api_demo _ (Server.sp_recommendations ["a1"; "b2"; "c3"; "d4"; "e5"]
                   (Z.min 10 100))
     = Returns (Server.recommendations_json two_recommendations)
  /\ result api_demo
       (Server.get_recommendations " a1 ,b2,  c3,d4 ,e5, f6,g7" 10)
     = Returns ("Recommendations based on 5 seed track(s):" ++ nl ++ nl
                ++ "1. Heroes by David Bowie" ++ nl
                ++ "   Album: Heroes" ++ nl
                ++ "   Track ID: 7Jh1bpe76CNTCgdgAdBw4Z" ++ nl
                ++ "   Popularity: 75/100" ++ nl ++ nl
                ++ "2. Rocket Man by Elton John" ++ nl
                ++ "   Album: Honky Chateau" ++ nl
                ++ "   Track ID: 3gdewACMIVMEWVbyb8O9sY" ++ nl
                ++ "   Popularity: 84/100" ++ nl ++ nl).
Proof.
  assert (Hseeds : seven_seeds <> []) by discriminate.
  assert (Hwell : Forall (fun p => Server.well_padded p = true) seven_seeds)
    by (repeat constructor).
  assert (Hne : two_recommendations <> []) by discriminate.
  assert (Hdigits : Forall (fun t => str_digits_ok (Server.rc_popularity t)
                                     = true) two_recommendations)
    by (repeat constructor).
  split; [exact Hseeds | split; [exact Hwell | split; [exact Hne|]]].
  split; [exact Hdigits | split; [reflexivity|]].
  exact (recommendations_are_listed api_demo seven_seeds 10
           two_recommendations Hseeds Hwell Hne Hdigits eq_refl).
Defined.

(** C9 on seven seeds as a caller may write them: five are passed on. *)
Lemma at_most_five_seeds_witness :
  seven_seeds <> []
  /\ Forall (fun p => Server.well_padded p = true) seven_seeds
  /\ " a1 ,b2,  c3,d4 ,e5, f6,g7"
     = String.concat "," (map Server.glue seven_seeds)
  /\ trace api_demo
       (Server.get_recommendations " a1 ,b2,  c3,d4 ,e5, f6,g7" 10)
     = [Event (Server.sp_recommendations ["a1"; "b2"; "c3"; "d4"; "e5"] 10)
          (Returns (Server.recommendations_json two_recommendations))]
  /\ (List.length ["a1"; "b2"; "c3"; "d4"; "e5"] <= 5)%nat
  /\ List.length ["a1"; "b2"; "c3"; "d4"; "e5"] = Nat.min 5 7.
Proof.
  assert (Hseeds : seven_seeds <> []) by discriminate.
  assert (Hwell : Forall (fun p => Server.well_padded p = true) seven_seeds)
    by (repeat constructor).
  split; [exact Hseeds | split; [exact Hwell | split; [reflexivity|]]].
  exact (proj2 (at_most_five_seeds api_demo " a1 ,b2,  c3,d4 ,e5, f6,g7" 10)
           seven_seeds Hseeds Hwell eq_refl).
Defined.

(** The second of three seeds, written with blanks around it. *)
Lemma seeds_are_clean_witness :
  In "b2" (Server.parse_track_ids " a1 ,  b2 ,c3")
  /\ has_char "," "b2" = false /\ strip "b2" = "b2"
  /\ exists piece, In piece (split "," " a1 ,  b2 ,c3") /\ "b2" = strip piece.
Proof.
  assert (Hin : In "b2" (Server.parse_track_ids " a1 ,  b2 ,c3"))
    by (right; left; reflexivity).
  split; [exact Hin|].
  exact (seeds_are_clean " a1 ,  b2 ,c3" "b2" Hin).
Defined.

(* ================================================================== *)
(** * The client *)
(* ================================================================== *)

Section ClientFacts.
Import Client.
Context {F : PyFloat} {L : Libraries}.

(** ** The response record *)

(** C1: the validator of [MCPToolResponse] does not enforce the invariant
    the claim states.  Whatever the success flag, a response given a
    non-empty content and a non-empty error is built, with both fields
    populated; and a response given neither field is built too, with both
    fields [None]. *)
Theorem response_is_built_with_both_or_neither
  (success : bool) (c0 e0 : ascii) (c e : string) :
  MCPToolResponse.new (Given success) (Given (Some (String c0 c)))
    (Given (Some (String e0 e)))
  = Returns {| MCPToolResponse.success := success;
               MCPToolResponse.content := Some (String c0 c);
               MCPToolResponse.error := Some (String e0 e) |}
  /\ MCPToolResponse.new (Given success) Omitted Omitted
     = Returns {| MCPToolResponse.success := success;
                  MCPToolResponse.content := None;
                  MCPToolResponse.error := None |}
  /\ MCPToolResponse.new Omitted Omitted Omitted
     = Returns {| MCPToolResponse.success := true;
                  MCPToolResponse.content := None;
                  MCPToolResponse.error := None |}.
Proof. destruct success; repeat split; reflexivity. Qed.

(** What the validator does enforce, on the fields that are given: content
    for a success, an error message for a failure. *)
Lemma response_is_validated (success : bool) (content error : option string)
  (r : MCPToolResponse.t) :
  MCPToolResponse.new (Given success) (Given content) (Given error)
  = Returns r ->
  r = {| MCPToolResponse.success := success;
         MCPToolResponse.content := content;
         MCPToolResponse.error := error |}
  /\ (if success then MCPToolResponse.blank content
      else MCPToolResponse.blank error) = false.
Proof.
  unfold MCPToolResponse.new, MCPToolResponse.field,
    MCPToolResponse.validate_content_or_error.
  destruct success; cbn;
    destruct (MCPToolResponse.blank content) eqn:Bc;
    destruct (MCPToolResponse.blank error) eqn:Be; cbn;
    intros H; inversion H; auto.
Qed.

(** ** Calling a tool *)

Variable answer : forall R, session_call R -> outcome R.

(** The names of [TOOL_SCHEMAS] pass the validator of [MCPToolCall]. *)
Lemma matched_name_is_callable (n : string) (schema : args_schema) :
  dict_get TOOL_SCHEMAS n = Some schema ->
  MCPToolCall.validate_tool_name n = Returns n.
Proof.
  unfold TOOL_SCHEMAS, dict_get.
  repeat match goal with
         | |- context [String.eqb ?k n] =>
             destruct (String.eqb_spec k n) as [<-|_];
             [intros _; reflexivity|]
         end.
  discriminate.
Qed.

(** C7 fails on this run.  The wrapper of a matched tool is called, with
    any keyword arguments, and opening the connection raises an exception
    whose message is empty.  The handler of [call_mcp_tool] then builds [MCPToolResponse(success=False, error="")], which the
    validator refuses: the wrapper raises that validation error and returns
    no string. *)
Theorem wrapper_raises_when_failure_has_no_message
  (tool_name : string) (schema : args_schema)
  (params : StdioServerParameters) (kwargs : list (string * value))
  (cls : string) :
  dict_get TOOL_SCHEMAS tool_name = Some schema ->
  answer _ (stdio_client params) = Raises (PyError cls "") ->
  result answer (make_tool_function tool_name params kwargs)
  = Raises (ValidationError "MCPToolResponse"
              [("error",
                "Value error, Failed response must have error message")]).
Proof.
  intros Hname Hopen. apply matched_name_is_callable in Hname.
  unfold make_tool_function, MCPToolCall.new. rewrite Hname.
  rewrite result_bind, result_pure, result_bind.
  unfold call_mcp_tool, with_session, async_with.
  cbn [catch result]. rewrite Hopen. reflexivity.
Qed.

(** The two ways [call_mcp_tool] builds a response. *)
Lemma success_response (c : string) (r : MCPToolResponse.t) :
  MCPToolResponse.new (Given true) (Given (Some c)) Omitted = Returns r ->
  c <> ""
  /\ r = {| MCPToolResponse.success := true;
            MCPToolResponse.content := Some c;
            MCPToolResponse.error := None |}.
Proof.
  destruct c; cbn; intros H; inversion H. split; [discriminate|reflexivity].
Qed.

Lemma failure_response (e : string) (r : MCPToolResponse.t) :
  MCPToolResponse.new (Given false) Omitted (Given (Some e)) = Returns r ->
  e <> ""
  /\ r = {| MCPToolResponse.success := false;
            MCPToolResponse.content := None;
            MCPToolResponse.error := Some e |}.
Proof.
  destruct e; cbn; intros H; inversion H. split; [discriminate|reflexivity].
Qed.

(** A response of [call_mcp_tool] is a success with its content or a
    failure with its error message, neither of them empty. *)
Lemma call_mcp_tool_response (tool_call : MCPToolCall.t)
  (params : StdioServerParameters) (r : MCPToolResponse.t) :
  result answer (call_mcp_tool tool_call params) = Returns r ->
  exists text,
    text <> ""
    /\ r = if MCPToolResponse.success r
           then {| MCPToolResponse.success := true;
                   MCPToolResponse.content := Some text;
                   MCPToolResponse.error := None |}
           else {| MCPToolResponse.success := false;
                   MCPToolResponse.content := None;
                   MCPToolResponse.error := Some text |}.
Proof.
  unfold call_mcp_tool. rewrite result_catch.
  destruct (result answer (with_session params _)) as [r'|e] eqn:Hbody.
  - intros [= ->]. revert Hbody. unfold with_session.
    rewrite result_async_with.
    destruct (answer _ (stdio_client params)); [|discriminate].
    rewrite result_leaving.
    destruct (answer _ stdio_client_exit); [|discriminate].
    rewrite result_async_with.
    destruct (answer _ ClientSession); [|discriminate].
    rewrite result_leaving.
    destruct (answer _ ClientSession_exit); [|discriminate].
    rewrite result_bind, result_call.
    destruct (answer _ initialize); [|discriminate].
    rewrite result_bind, result_call.
    destruct (answer _ (call_tool _ _)) as [[[[|item items]]|]|];
      try discriminate;
      rewrite result_pure; intros H;
      first [ apply success_response in H as [Hne ->]
            | apply failure_response in H as [Hne ->] ];
      (eexists; split; [exact Hne | reflexivity]).
  - rewrite result_pure. intros H.
    apply failure_response in H as [Hne ->].
    eexists; split; [exact Hne | reflexivity].
Qed.

(** Once [call_mcp_tool] has a response, the wrapper returns a string: the
    content of the response for a success, and "Error: " followed by its
    error message for a failure. *)
Lemma wrapper_translates_response
  (tool_name : string) (schema : args_schema)
  (params : StdioServerParameters) (kwargs : list (string * value))
  (response : MCPToolResponse.t) :
  dict_get TOOL_SCHEMAS tool_name = Some schema ->
  result answer
    (call_mcp_tool {| MCPToolCall.tool_name := tool_name;
                      MCPToolCall.arguments := kwargs |} params)
  = Returns response ->
  exists text,
    text <> ""
    /\ (if MCPToolResponse.success response
        then MCPToolResponse.content response
        else MCPToolResponse.error response) = Some text
    /\ result answer (make_tool_function tool_name params kwargs)
       = Returns (if MCPToolResponse.success response then text
                  else "Error: " ++ text).
Proof.
  intros Hname Hresp. apply matched_name_is_callable in Hname.
  destruct (call_mcp_tool_response _ _ _ Hresp) as (text & Hne & Hshape).
  exists text. split; [exact Hne|].
  unfold make_tool_function, MCPToolCall.new. rewrite Hname.
  rewrite result_bind, result_pure, result_bind, Hresp.
  destruct (MCPToolResponse.success response); rewrite Hshape; cbn.
  - split; [reflexivity|]. unfold str_or. cbn.
    destruct text; [contradiction|reflexivity].
  - split; reflexivity.
Qed.

(** Every call of the wrapper starts by opening a connection of its own. *)
Lemma wrapper_opens_connection
  (tool_name : string) (schema : args_schema)
  (params : StdioServerParameters) (kwargs : list (string * value)) :
  dict_get TOOL_SCHEMAS tool_name = Some schema ->
  exists rest,
    trace answer (make_tool_function tool_name params kwargs)
    = Event (stdio_client params) (answer _ (stdio_client params)) :: rest.
Proof.
  intros Hname. apply matched_name_is_callable in Hname.
  unfold make_tool_function, MCPToolCall.new. rewrite Hname.
  rewrite trace_bind, trace_pure, result_pure, trace_bind.
  unfold call_mcp_tool, with_session, async_with.
  cbn [catch trace app]. eauto.
Qed.

(** ** Discovery *)

Lemma matched_name_is_valid (n : string) (schema : args_schema) :
  dict_get TOOL_SCHEMAS n = Some schema ->
  MCPToolSchema.validate_tool_name n = Returns n
  /\ (String.length n <? 1)%nat = false.
Proof.
  unfold TOOL_SCHEMAS, dict_get.
  repeat match goal with
         | |- context [String.eqb ?k n] =>
             destruct (String.eqb_spec k n) as [<-|_];
             [intros _; split; reflexivity|]
         end.
  discriminate.
Qed.

Lemma matched_tool_validates (t : Tool) (schema : args_schema) :
  dict_get TOOL_SCHEMAS (name t) = Some schema ->
  properties_listable t = true ->
  validate_tool t
  = Returns {| MCPToolSchema.name := name t;
               MCPToolSchema.description := description t;
               MCPToolSchema.input_schema := inputSchema t |}.
Proof.
  intros Hm Hl. apply matched_name_is_valid in Hm as [Hv Hlen].
  unfold validate_tool, MCPToolSchema.new. rewrite Hlen, Hv.
  cbn [obind MCPToolSchema.input_schema get_method].
  unfold properties_listable in Hl.
  destruct (dict_lookup (inputSchema t) "properties") as [[| | | | | |d]|];
    try discriminate; reflexivity.
Qed.

Lemma validated_name (t : Tool) (v : MCPToolSchema.t) :
  validate_tool t = Returns v -> MCPToolSchema.name v = name t.
Proof.
  unfold validate_tool, MCPToolSchema.new.
  destruct (String.length (name t) <? 1)%nat; [discriminate|].
  unfold MCPToolSchema.validate_tool_name.
  destruct (negb _); [discriminate|]. cbn [obind].
  destruct (get_method _ _ _) as [p|]; [|discriminate]. cbn [obind].
  destruct (keys_method p); [|discriminate]. cbn [obind].
  now intros [= <-].
Qed.

(** C5, as the code has it: whatever the server declares, no tool whose
    name is missing from [TOOL_SCHEMAS] is among the callables discovery
    produces, and every declared tool whose name is in [TOOL_SCHEMAS] and
    the properties of whose input schema can be listed (the entry is
    missing or is a dict) is among them, under its name, with the schema
    of the table and the wrapper made for it, whichever other tools are
    declared around it. *)
Theorem discovery_keeps_the_matched_tools
  (server_params : StdioServerParameters) (tools : list Tool) :
  (forall st, In st (discover_loop server_params tools) ->
              exists schema, dict_get TOOL_SCHEMAS (st_name st) = Some schema)
  /\ (forall t schema,
        In t tools ->
        dict_get TOOL_SCHEMAS (name t) = Some schema ->
        properties_listable t = true ->
        exists st,
          In st (discover_loop server_params tools)
          /\ st_name st = name t
          /\ st_args_schema st = schema
          /\ st_coroutine st = make_tool_function (name t) server_params).
Proof.
  split.
  - induction tools as [|t rest IH]; cbn [discover_loop]; [intros st []|].
    destruct (validate_tool t) as [v|]; [|exact IH].
    destruct (dict_get TOOL_SCHEMAS (MCPToolSchema.name v)) as [schema|] eqn:E;
      [|exact IH].
    intros st [<-|Hin]; [cbn; eauto | now apply IH].
  - induction tools as [|t' rest IH]; intros t schema Hin Hm Hl; [destruct Hin|].
    cbn [discover_loop].
    destruct Hin as [->|Hin].
    + rewrite (matched_tool_validates _ _ Hm Hl). cbn [MCPToolSchema.name].
      rewrite Hm. eexists. split; [left; reflexivity|]. cbn. auto.
    + destruct (IH t schema Hin Hm Hl) as (st & Hst & Hrest).
      exists st. split; [|exact Hrest].
      destruct (validate_tool t') as [v|]; [|exact Hst].
      destruct (dict_get TOOL_SCHEMAS (MCPToolSchema.name v));
        [right|]; exact Hst.
Qed.

(** ** Tool names *)

Lemma cleaned_name (v : string) :
  all_chars isalnum_char (remove_char "-" (remove_char "_" v))
  = all_chars name_char v.
Proof.
  unfold name_char. induction v as [|c v IH]; [reflexivity|].
  cbn [remove_char all_chars].
  destruct (Ascii.eqb_spec c "_") as [->|Hu]; [exact IH|].
  cbn [remove_char].
  destruct (Ascii.eqb_spec c "-") as [->|Hh]; [exact IH|].
  cbn [all_chars]. rewrite IH. now rewrite !orb_false_r.
Qed.

Lemma cleaned_name_empty (v : string) :
  all_chars name_char v = true ->
  remove_char "-" (remove_char "_" v) = "" ->
  any_chars isalnum_char v = false.
Proof.
  induction v as [|c v IH]; [reflexivity|].
  cbn [remove_char all_chars any_chars]. intros Hall.
  apply andb_true_iff in Hall as [Hc Hv].
  destruct (Ascii.eqb_spec c "_") as [->|Hu]; [intros H; now apply IH|].
  cbn [remove_char].
  destruct (Ascii.eqb_spec c "-") as [->|Hh]; [intros H; now apply IH|].
  discriminate.
Qed.

Lemma cleaned_name_some (v : string) :
  all_chars isalnum_char (remove_char "-" (remove_char "_" v)) = true ->
  remove_char "-" (remove_char "_" v) <> "" ->
  any_chars isalnum_char v = true.
Proof.
  induction v as [|c v IH]; [now intros _ H|].
  cbn [remove_char any_chars].
  destruct (Ascii.eqb_spec c "_") as [->|Hu];
    [intros H1 H2; rewrite (IH H1 H2); apply orb_true_r|].
  cbn [remove_char].
  destruct (Ascii.eqb_spec c "-") as [->|Hh];
    [intros H1 H2; rewrite (IH H1 H2); apply orb_true_r|].
  cbn [all_chars]. intros H _. apply andb_true_iff in H as [-> _].
  reflexivity.
Qed.

Lemma cleaned_name_alnum (v : string) :
  isalnum (remove_char "-" (remove_char "_" v))
  = all_chars name_char v && any_chars isalnum_char v.
Proof.
  unfold isalnum.
  destruct (remove_char "-" (remove_char "_" v)) as [|c w] eqn:E.
  - destruct (all_chars name_char v) eqn:Hall; [|reflexivity].
    now rewrite (cleaned_name_empty v Hall E).
  - rewrite <- E, cleaned_name.
    destruct (all_chars name_char v) eqn:Hall; [|reflexivity].
    rewrite cleaned_name_some; [reflexivity | now rewrite cleaned_name |].
    rewrite E. discriminate.
Qed.

(** A tool name passes the validator of [MCPToolSchema] exactly when all
    its characters are alphanumeric, underscores or hyphens and at least
    one of them is alphanumeric; a name made of underscores and hyphens
    alone is refused, like the empty name. *)
Theorem tool_name_is_valid_iff (v : string) :
  MCPToolSchema.validate_tool_name v = Returns v
  <-> all_chars name_char v = true /\ any_chars isalnum_char v = true.
Proof.
  unfold MCPToolSchema.validate_tool_name. rewrite cleaned_name_alnum.
  destruct (all_chars name_char v), (any_chars isalnum_char v); cbn;
    split; try tauto; try discriminate; intros [H1 H2]; discriminate.
Qed.

Lemma alnum_is_nonblank (v : string) :
  any_chars isalnum_char v = true -> nonblank v = true.
Proof.
  unfold nonblank. induction v as [|c v IH]; [discriminate|].
  cbn [any_chars]. intros H. apply orb_true_iff in H as [H|H].
  - now rewrite (isalnum_not_space c H).
  - rewrite (IH H). apply orb_true_r.
Qed.

Lemma valid_name_has_alnum (v : string) :
  MCPToolSchema.validate_tool_name v = Returns v ->
  any_chars isalnum_char v = true.
Proof.
  unfold MCPToolSchema.validate_tool_name. rewrite cleaned_name_alnum.
  destruct (any_chars isalnum_char v); [reflexivity|].
  rewrite andb_false_r. discriminate.
Qed.

(** The two validators of tool names agree where it matters: a name that
    [MCPToolSchema] accepts at discovery is accepted by [MCPToolCall] when
    the wrapper builds its call record. *)
Theorem discovered_name_is_callable (v : string) :
  MCPToolSchema.validate_tool_name v = Returns v ->
  MCPToolCall.validate_tool_name v = Returns v.
Proof.
  intros H. apply valid_name_has_alnum in H as Hany.
  apply alnum_is_nonblank in Hany.
  unfold MCPToolCall.validate_tool_name.
  destruct (String.eqb_spec (strip v) "") as [E|_].
  - now apply strip_nonblank in Hany.
  - destruct v; [discriminate Hany | reflexivity].
Qed.

(** ** Queries *)

Lemma blank_is_stripped (s : string) : nonblank s = false -> strip s = "".
Proof.
  intros H. apply strip_blank. unfold nonblank in H.
  induction s as [|c s IH]; [reflexivity|]. cbn in *.
  apply orb_false_iff in H as [Hc Hs]. apply negb_false_iff in Hc.
  now rewrite Hc, IH.
Qed.

Lemma length_zero (s : string) : String.length s = 0%nat -> s = "".
Proof. now destruct s. Qed.

(** An [AgentQuery] that is built holds the input stripped of its
    surrounding white space; the stored query is not empty, has no white
    space around it, came from an input of 1 to 5000 characters, and is
    itself accepted as a query, unchanged. *)
Theorem query_is_normalised (q : string) (r : AgentQuery.t) :
  AgentQuery.new q = Returns r ->
  AgentQuery.query r = strip q
  /\ AgentQuery.query r <> ""
  /\ strip (AgentQuery.query r) = AgentQuery.query r
  /\ (1 <= String.length q <= 5000)%nat
  /\ AgentQuery.new (AgentQuery.query r) = Returns r.
Proof.
  unfold AgentQuery.new, AgentQuery.validate_query.
  destruct (Z.ltb_spec (Z.of_nat (String.length q)) 1) as [|Hmin];
    [discriminate|].
  destruct (Z.ltb_spec 5000 (Z.of_nat (String.length q))) as [|Hmax];
    [discriminate|].
  destruct (String.eqb_spec q "") as [|Hq]; [discriminate|].
  destruct (String.eqb_spec (strip q) "") as [|Hs]; [discriminate|].
  cbn. intros [= <-]. cbn [AgentQuery.query].
  pose proof (strip_length q) as Hlen.
  assert (Hpos : (1 <= String.length (strip q))%nat).
  { destruct (strip q); [contradiction | cbn; lia]. }
  repeat split; try lia; try assumption; try apply strip_idem.
  destruct (Z.ltb_spec (Z.of_nat (String.length (strip q))) 1); [lia|].
  destruct (Z.ltb_spec 5000 (Z.of_nat (String.length (strip q)))); [lia|].
  rewrite strip_idem.
  destruct (String.eqb_spec (strip q) ""); [contradiction|]. reflexivity.
Qed.

(** A query is accepted exactly when it has a character that is not white
    space and at most 5000 characters in all. *)
Theorem query_is_accepted_iff (q : string) :
  (exists r, AgentQuery.new q = Returns r)
  <-> nonblank q = true /\ (String.length q <= 5000)%nat.
Proof.
  unfold AgentQuery.new, AgentQuery.validate_query. split.
  - intros [r H]. revert H.
    destruct (Z.ltb_spec (Z.of_nat (String.length q)) 1); [discriminate|].
    destruct (Z.ltb_spec 5000 (Z.of_nat (String.length q))); [discriminate|].
    destruct (String.eqb_spec q ""); [discriminate|].
    destruct (String.eqb_spec (strip q) "") as [|Hs]; [discriminate|].
    intros _. split; [|lia].
    destruct (nonblank q) eqn:E; [reflexivity|].
    now apply blank_is_stripped in E.
  - intros [Hnb Hlen]. pose proof (strip_nonblank q Hnb) as Hs.
    assert (Hq : q <> "") by (intros ->; discriminate Hnb).
    destruct (Z.ltb_spec (Z.of_nat (String.length q)) 1) as [Hlt|].
    { destruct q; [contradiction | cbn in Hlt; lia]. }
    destruct (Z.ltb_spec 5000 (Z.of_nat (String.length q))); [lia|].
    destruct (String.eqb_spec q ""); [contradiction|].
    destruct (String.eqb_spec (strip q) ""); [contradiction|].
    cbn. eauto.
Qed.

(** ** Failures of the connection *)

(** The run of a session: the two blocks are entered in turn, and each
    block that was entered is left, the inner one first. *)
Lemma with_session_trace {A : Type} (params : StdioServerParameters)
  (body : client A) :
  trace answer (with_session params body)
  = Event (stdio_client params) (answer _ (stdio_client params))
    :: match answer _ (stdio_client params) with
       | Raises _ => []
       | Returns _ =>
           (Event ClientSession (answer _ ClientSession)
            :: match answer _ ClientSession with
               | Raises _ => []
               | Returns _ =>
                   (Event initialize (answer _ initialize)
                    :: match answer _ initialize with
                       | Raises _ => []
                       | Returns _ => trace answer body
                       end)
                   ++ [Event ClientSession_exit (answer _ ClientSession_exit)]
               end)
           ++ [Event stdio_client_exit (answer _ stdio_client_exit)]
       end%list.
Proof.
  unfold with_session. rewrite trace_async_with.
  destruct (answer _ (stdio_client params)); [|reflexivity].
  rewrite trace_leaving, trace_async_with.
  destruct (answer _ ClientSession); [|reflexivity].
  rewrite trace_leaving, trace_bind, trace_call, result_call.
  now destruct (answer _ initialize).
Qed.

Lemma with_session_result {A : Type} (params : StdioServerParameters)
  (body : client A) :
  result answer (with_session params body)
  = match answer _ (stdio_client params) with
    | Raises e => Raises e
    | Returns _ =>
        match answer _ stdio_client_exit with
        | Raises e => Raises e
        | Returns _ =>
            match answer _ ClientSession with
            | Raises e => Raises e
            | Returns _ =>
                match answer _ ClientSession_exit with
                | Raises e => Raises e
                | Returns _ =>
                    match answer _ initialize with
                    | Raises e => Raises e
                    | Returns _ => result answer body
                    end
                end
            end
        end
    end.
Proof.
  unfold with_session. rewrite result_async_with.
  destruct (answer _ (stdio_client params)); [|reflexivity].
  rewrite result_leaving.
  destruct (answer _ stdio_client_exit); [|reflexivity].
  rewrite result_async_with.
  destruct (answer _ ClientSession); [|reflexivity].
  rewrite result_leaving.
  destruct (answer _ ClientSession_exit); [|reflexivity].
  rewrite result_bind, result_call.
  now destruct (answer _ initialize).
Qed.

Lemma call_mcp_tool_trace (tool_call : MCPToolCall.t)
  (params : StdioServerParameters) :
  trace answer (call_mcp_tool tool_call params)
  = trace answer
      (with_session params
         (call (call_tool (MCPToolCall.tool_name tool_call)
                          (MCPToolCall.arguments tool_call)))).
Proof.
  unfold call_mcp_tool. rewrite trace_catch_quiet, !with_session_trace.
  rewrite trace_bind, !trace_call, result_call.
  destruct (answer _ (call_tool _ _)) as [[[[|item items]]|]|];
    now rewrite ?trace_pure.
Qed.

(** The handler of [call_mcp_tool] gets the last exception of the session. *)
Lemma session_failure_is_caught (tool_call : MCPToolCall.t)
  (params : StdioServerParameters) (e : exn) :
  last_raised
    (trace answer
       (with_session params
          (call (call_tool (MCPToolCall.tool_name tool_call)
                           (MCPToolCall.arguments tool_call)))))
  = Some e ->
  result answer (call_mcp_tool tool_call params)
  = MCPToolResponse.new (Given false) Omitted (Given (Some (exn_str e))).
Proof.
  rewrite with_session_trace, trace_call.
  unfold call_mcp_tool.
  rewrite result_catch, with_session_result, result_bind, result_call.
  repeat match goal with
         | |- context [answer ?R ?c] =>
             let o := fresh "o" in
             destruct (answer R c) as [o|?]; [try destruct o|]
         end;
    cbn; try discriminate; intros [= ->]; now rewrite ?result_pure.
Qed.

(** An exception raised while the tool is called, be it on connecting, in
    the session or on the way out, ends up in the response: the result of
    [call_mcp_tool] is what [MCPToolResponse(success=False, error=str(e))]
    gives for the last exception [e] that was raised. *)
Theorem failure_becomes_response (tool_call : MCPToolCall.t)
  (params : StdioServerParameters) (e : exn) :
  last_raised (trace answer (call_mcp_tool tool_call params)) = Some e ->
  result answer (call_mcp_tool tool_call params)
  = MCPToolResponse.new (Given false) Omitted (Given (Some (exn_str e))).
Proof.
  intros Hlast. rewrite call_mcp_tool_trace in Hlast.
  now apply session_failure_is_caught.
Qed.

Lemma wrapper_trace (tool_name : string) (schema : args_schema)
  (params : StdioServerParameters) (kwargs : list (string * value)) :
  dict_get TOOL_SCHEMAS tool_name = Some schema ->
  trace answer (make_tool_function tool_name params kwargs)
  = trace answer
      (call_mcp_tool {| MCPToolCall.tool_name := tool_name;
                        MCPToolCall.arguments := kwargs |} params).
Proof.
  intros Hname. apply matched_name_is_callable in Hname.
  unfold make_tool_function, MCPToolCall.new. rewrite Hname.
  rewrite trace_bind, trace_pure, result_pure, trace_bind. cbn [app].
  destruct (result answer (call_mcp_tool _ _)) as [r|]; cbn [app];
    [|now rewrite app_nil_r].
  destruct (MCPToolResponse.success r); cbn [trace]; now rewrite app_nil_r.
Qed.

(** When a call of a matched tool fails with an exception that has a
    message, the wrapper returns "Error: " followed by that message;
    the exception that counts is the last one raised, so a failure on the
    way out of the connection takes the place of what came before. *)
Theorem wrapper_reports_failure (tool_name : string) (schema : args_schema)
  (params : StdioServerParameters) (kwargs : list (string * value))
  (e : exn) :
  dict_get TOOL_SCHEMAS tool_name = Some schema ->
  last_raised (trace answer (make_tool_function tool_name params kwargs))
  = Some e ->
  exn_str e <> "" ->
  result answer (make_tool_function tool_name params kwargs)
  = Returns ("Error: " ++ exn_str e).
Proof.
  intros Hname Hlast Hmsg.
  rewrite (wrapper_trace _ _ _ _ Hname), call_mcp_tool_trace in Hlast.
  apply session_failure_is_caught in Hlast.
  apply matched_name_is_callable in Hname.
  unfold make_tool_function, MCPToolCall.new. rewrite Hname.
  rewrite result_bind, result_pure, result_bind, Hlast.
  destruct (exn_str e) as [|c s]; [contradiction|]. reflexivity.
Qed.

(** [call_mcp_tool] leaves no connection open: once the connection is
    open, the last thing it does is to close it, whatever happened in
    between; and once the session is entered, it is left just before. *)
Theorem connection_is_closed (tool_call : MCPToolCall.t)
  (params : StdioServerParameters) :
  answer _ (stdio_client params) = Returns tt ->
  exists mid,
    trace answer (call_mcp_tool tool_call params)
    = (Event (stdio_client params) (Returns tt)
       :: mid ++ [Event stdio_client_exit (answer _ stdio_client_exit)])%list
    /\ (answer _ ClientSession = Returns tt ->
        exists inner,
          mid = (Event ClientSession (Returns tt)
                 :: inner
                 ++ [Event ClientSession_exit
                       (answer _ ClientSession_exit)])%list).
Proof.
  intros Hopen. rewrite call_mcp_tool_trace, with_session_trace, Hopen.
  eexists. split; [reflexivity|].
  intros Hsession. rewrite Hsession. eauto.
Qed.

(** ** Discovery, end to end *)

Lemma unlistable_is_skipped (t : Tool) :
  properties_listable t = false -> exists e, validate_tool t = Raises e.
Proof.
  unfold properties_listable, validate_tool, MCPToolSchema.new. intros H.
  destruct (String.length (name t) <? 1)%nat; [cbn; eauto|].
  destruct (MCPToolSchema.validate_tool_name (name t)); [|cbn; eauto].
  cbn [obind MCPToolSchema.input_schema get_method].
  destruct (dict_lookup (inputSchema t) "properties")
    as [[| | | | | |d]|]; try discriminate; cbn; eauto.
Qed.

(** The callables discovery produces are those of the usable declared
    tools, one for each, in the order the server declared them; a tool
    declared twice yields two. *)
Theorem discovered_in_order (server_params : StdioServerParameters)
  (tools : list Tool) :
  map st_name (discover_loop server_params tools)
  = map name (filter usable tools).
Proof.
  induction tools as [|t tools IH]; [reflexivity|].
  cbn [discover_loop filter]. unfold usable at 1.
  destruct (dict_get TOOL_SCHEMAS (name t)) as [schema|] eqn:Hm.
  - destruct (properties_listable t) eqn:Hl.
    + rewrite (matched_tool_validates _ _ Hm Hl). cbn [MCPToolSchema.name].
      rewrite Hm. cbn. now rewrite IH.
    + destruct (unlistable_is_skipped t Hl) as [e ->]. exact IH.
  - destruct (validate_tool t) as [v|] eqn:Hv; [|exact IH].
    rewrite (validated_name _ _ Hv), Hm. exact IH.
Qed.

(** Discovery on a server that answers: the connection is made with the
    configured command, the fixed arguments and the environment without
    [VIRTUAL_ENV]; the session is opened, initialised, asked for its
    tools and closed; and the result is the callables of the declared
    tools together with the connection parameters. *)
Theorem discovery_connects_and_lists (environ : list (string * string))
  (server_config : MCPServerConfig.t) (tools : list Tool) :
  answer _ (stdio_client (spotify_mcp_params environ server_config))
  = Returns tt ->
  answer _ ClientSession = Returns tt ->
  answer _ initialize = Returns tt ->
  answer _ list_tools = Returns tools ->
  answer _ ClientSession_exit = Returns tt ->
  answer _ stdio_client_exit = Returns tt ->
  run answer (discover_mcp_tools environ server_config)
  = ([ Event (stdio_client (spotify_mcp_params environ server_config))
         (Returns tt);
       Event ClientSession (Returns tt);
       Event initialize (Returns tt);
       Event list_tools (Returns tools);
       Event ClientSession_exit (Returns tt);
       Event stdio_client_exit (Returns tt) ],
     Returns (discover_loop (spotify_mcp_params environ server_config) tools,
              spotify_mcp_params environ server_config))
  /\ forall k v,
       In (k, v) (env (spotify_mcp_params environ server_config))
       <-> In (k, v) environ /\ k <> "VIRTUAL_ENV".
Proof.
  intros H1 H2 H3 H4 H5 H6. split.
  - unfold run, discover_mcp_tools.
    change {| command := MCPServerConfig.command server_config;
              args := _; env := _ |}
      with (spotify_mcp_params environ server_config).
    rewrite with_session_trace, with_session_result, trace_bind, result_bind,
      trace_call, result_call, H1, H2, H3, H4, H5, H6.
    reflexivity.
  - intros k v. cbn [env spotify_mcp_params]. rewrite filter_In. cbn [fst].
    rewrite negb_true_iff.
    destruct (String.eqb_spec k "VIRTUAL_ENV");
      split; intros [Hin H]; split; try assumption; congruence.
Qed.

(** Discovery has no handler of its own: when listing the tools fails,
    the session and the connection are closed all the same and the
    exception goes to the caller. *)
Theorem discovery_failure_propagates (environ : list (string * string))
  (server_config : MCPServerConfig.t) (e : exn) :
  answer _ (stdio_client (spotify_mcp_params environ server_config))
  = Returns tt ->
  answer _ ClientSession = Returns tt ->
  answer _ initialize = Returns tt ->
  answer _ list_tools = Raises e ->
  answer _ ClientSession_exit = Returns tt ->
  answer _ stdio_client_exit = Returns tt ->
  run answer (discover_mcp_tools environ server_config)
  = ([ Event (stdio_client (spotify_mcp_params environ server_config))
         (Returns tt);
       Event ClientSession (Returns tt);
       Event initialize (Returns tt);
       Event list_tools (Raises e);
       Event ClientSession_exit (Returns tt);
       Event stdio_client_exit (Returns tt) ],
     Raises e).
Proof.
  intros H1 H2 H3 H4 H5 H6.
  unfold run, discover_mcp_tools.
  change {| command := MCPServerConfig.command server_config;
            args := _; env := _ |}
    with (spotify_mcp_params environ server_config).
  rewrite with_session_trace, with_session_result, trace_bind, result_bind,
    trace_call, result_call, H1, H2, H3, H4, H5, H6.
  reflexivity.
Qed.

End ClientFacts.

(** Two constructions that go through: a success that also carries an
    error, and a response without any field. *)
Lemma response_with_both_fields :
  Client.MCPToolResponse.new (Client.Given true) (Client.Given (Some "ok"))
    (Client.Given (Some "oops"))
  = Returns {| Client.MCPToolResponse.success := true;
               Client.MCPToolResponse.content := Some "ok";
               Client.MCPToolResponse.error := Some "oops" |}
  /\ Client.MCPToolResponse.new Client.Omitted Client.Omitted Client.Omitted
     = Returns {| Client.MCPToolResponse.success := true;
                  Client.MCPToolResponse.content := None;
                  Client.MCPToolResponse.error := None |}.
Proof. split; reflexivity. Qed.

(** C7 on a run: the server's pipe has closed. *)
Lemma wrapper_raises_when_failure_has_no_message_witness :
  Client.dict_get Client.TOOL_SCHEMAS "SpotifySearch"
  = Some Client.SpotifySearchArgs
  /\ server_gone _ (Client.stdio_client uv_params)
     = Raises (PyError "ClosedResourceError" "")
  /\ result server_gone
       (Client.make_tool_function "SpotifySearch" uv_params
          [("query", VStr "Bohemian Rhapsody"); ("qtype", VStr "track")])
     = Raises (Client.ValidationError "MCPToolResponse"
                 [("error",
                   "Value error, Failed response must have error message")]).
Proof.
  split; [reflexivity | split; [reflexivity|]].
  exact (wrapper_raises_when_failure_has_no_message server_gone
           "SpotifySearch" Client.SpotifySearchArgs uv_params _
           "ClosedResourceError" eq_refl eq_refl).
Defined.

(** A tool call against a server that is up: the wrapper returns the
    content of the response. *)
Lemma wrapper_translates_response_witness :
  Client.dict_get Client.TOOL_SCHEMAS "SpotifySearch"
  = Some Client.SpotifySearchArgs
  /\ result server_up
       (Client.call_mcp_tool
          {| Client.MCPToolCall.tool_name := "SpotifySearch";
             Client.MCPToolCall.arguments := [("query", VStr "Queen")] |}
          uv_params)
     = Returns {| Client.MCPToolResponse.success := true;
                  Client.MCPToolResponse.content :=
                    Some "type='text' text='Found 1 tracks'";
                  Client.MCPToolResponse.error := None |}
  /\ exists text,
       text <> ""
       /\ Some "type='text' text='Found 1 tracks'" = Some text
       /\ result server_up
            (Client.make_tool_function "SpotifySearch" uv_params
               [("query", VStr "Queen")])
          = Returns text.
Proof.
  split; [reflexivity | split; [reflexivity|]].
  exact (wrapper_translates_response server_up "SpotifySearch"
           Client.SpotifySearchArgs uv_params [("query", VStr "Queen")] _
           eq_refl eq_refl).
Defined.

(** The same call, seen from the connection. *)
Lemma wrapper_opens_connection_witness :
  Client.dict_get Client.TOOL_SCHEMAS "SpotifySearch"
  = Some Client.SpotifySearchArgs
  /\ exists rest,
       trace server_up
         (Client.make_tool_function "SpotifySearch" uv_params
            [("query", VStr "Queen")])
       = Event (Client.stdio_client uv_params) (Returns tt) :: rest.
Proof.
  split; [reflexivity|].
  exact (wrapper_opens_connection server_up "SpotifySearch"
           Client.SpotifySearchArgs uv_params [("query", VStr "Queen")]
           eq_refl).
Defined.

(** A failure response that is built has its error message. *)
Lemma response_is_validated_witness :
  Client.MCPToolResponse.new (Client.Given false) (Client.Given None)
    (Client.Given (Some "No content in response"))
  = Returns {| Client.MCPToolResponse.success := false;
               Client.MCPToolResponse.content := None;
               Client.MCPToolResponse.error := Some "No content in response" |}
  /\ Client.MCPToolResponse.blank (Some "No content in response") = false.
Proof.
  split; [reflexivity|].
  exact (proj2 (response_is_validated false None
                  (Some "No content in response") _ eq_refl)).
Defined.

(** C5 as stated fails here: the tool is named as [TOOL_SCHEMAS] has it and
    its name is valid, yet discovery produces no callable for it, because
    the properties of its input schema cannot be listed. *)
Lemma matched_tool_is_skipped :
  Client.name search_without_properties = "SpotifySearch"
  /\ Client.MCPToolSchema.validate_tool_name "SpotifySearch"
     = Returns "SpotifySearch"
  /\ Client.dict_get Client.TOOL_SCHEMAS "SpotifySearch"
     = Some Client.SpotifySearchArgs
  /\ Client.discover_loop uv_params [search_without_properties] = [].
Proof. repeat split; reflexivity. Qed.

(** A name with a hyphen and an underscore goes through both validators. *)
Lemma discovered_name_is_callable_witness :
  Client.MCPToolSchema.validate_tool_name "spotify-get_info"
  = Returns "spotify-get_info"
  /\ Client.MCPToolCall.validate_tool_name "spotify-get_info"
     = Returns "spotify-get_info".
Proof.
  split; [reflexivity|].
  exact (discovered_name_is_callable "spotify-get_info" eq_refl).
Defined.

(** A query with white space around it. *)
Lemma query_is_normalised_witness :
  Client.AgentQuery.new "  Find songs by Queen  "
  = Returns {| Client.AgentQuery.query := "Find songs by Queen" |}
  /\ "Find songs by Queen" = strip "  Find songs by Queen  "
  /\ "Find songs by Queen" <> ""
  /\ strip "Find songs by Queen" = "Find songs by Queen"
  /\ (1 <= String.length "  Find songs by Queen  " <= 5000)%nat
  /\ Client.AgentQuery.new "Find songs by Queen"
     = Returns {| Client.AgentQuery.query := "Find songs by Queen" |}.
Proof.
  split; [reflexivity|].
  exact (query_is_normalised "  Find songs by Queen  "
           {| Client.AgentQuery.query := "Find songs by Queen" |} eq_refl).
Defined.

(** A tool call that times out: the response carries the message of the
    time-out. *)
Lemma failure_becomes_response_witness :
  last_raised
    (trace server_times_out
       (Client.call_mcp_tool
          {| Client.MCPToolCall.tool_name := "SpotifySearch";
             Client.MCPToolCall.arguments := [("query", VStr "Queen")] |}
          uv_params))
  = Some (PyError "McpError" "Timed out while waiting for response")
  /\ result server_times_out
       (Client.call_mcp_tool
          {| Client.MCPToolCall.tool_name := "SpotifySearch";
             Client.MCPToolCall.arguments := [("query", VStr "Queen")] |}
          uv_params)
     = Returns {| Client.MCPToolResponse.success := false;
                  Client.MCPToolResponse.content := None;
                  Client.MCPToolResponse.error :=
                    Some "Timed out while waiting for response" |}.
Proof.
  split; [reflexivity|].
  exact (failure_becomes_response server_times_out
           {| Client.MCPToolCall.tool_name := "SpotifySearch";
              Client.MCPToolCall.arguments := [("query", VStr "Queen")] |}
           uv_params
           (PyError "McpError" "Timed out while waiting for response")
           eq_refl).
Defined.

(** The same call through the wrapper. *)
Lemma wrapper_reports_failure_witness :
  Client.dict_get Client.TOOL_SCHEMAS "SpotifySearch"
  = Some Client.SpotifySearchArgs
  /\ result server_times_out
       (Client.make_tool_function "SpotifySearch" uv_params
          [("query", VStr "Queen")])
     = Returns "Error: Timed out while waiting for response".
Proof.
  split; [reflexivity|].
  refine (wrapper_reports_failure server_times_out "SpotifySearch"
            Client.SpotifySearchArgs uv_params [("query", VStr "Queen")]
            (PyError "McpError" "Timed out while waiting for response")
            eq_refl eq_refl _).
  discriminate.
Defined.

(** The call that times out closes the session and the connection. *)
Lemma connection_is_closed_witness :
  server_times_out _ (Client.stdio_client uv_params) = Returns tt
  /\ exists mid,
       trace server_times_out
         (Client.call_mcp_tool
            {| Client.MCPToolCall.tool_name := "SpotifySearch";
               Client.MCPToolCall.arguments := [("query", VStr "Queen")] |}
            uv_params)
       = (Event (Client.stdio_client uv_params) (Returns tt)
          :: mid ++ [Event Client.stdio_client_exit (Returns tt)])%list
       /\ (server_times_out _ Client.ClientSession = Returns tt ->
           exists inner,
             mid = (Event Client.ClientSession (Returns tt)
                    :: inner
                    ++ [Event Client.ClientSession_exit (Returns tt)])%list).
Proof.
  split; [reflexivity|].
  exact (connection_is_closed server_times_out
           {| Client.MCPToolCall.tool_name := "SpotifySearch";
              Client.MCPToolCall.arguments := [("query", VStr "Queen")] |}
           uv_params eq_refl).
Defined.

(** Discovery against a server that declares four tools: two of them are
    usable. *)
Lemma discovery_connects_and_lists_witness :
  server_declares _
    (Client.stdio_client (Client.spotify_mcp_params demo_environ demo_config))
  = Returns tt
  /\ Client.env (Client.spotify_mcp_params demo_environ demo_config)
     = [ ("PATH", "/usr/local/bin:/usr/bin");
         ("SPOTIFY_CLIENT_ID", "0123456789abcdef") ]
  /\ run server_declares (Client.discover_mcp_tools demo_environ demo_config)
     = ([ Event (Client.stdio_client
                   (Client.spotify_mcp_params demo_environ demo_config))
            (Returns tt);
          Event Client.ClientSession (Returns tt);
          Event Client.initialize (Returns tt);
          Event Client.list_tools (Returns declared_tools);
          Event Client.ClientSession_exit (Returns tt);
          Event Client.stdio_client_exit (Returns tt) ],
        Returns (Client.discover_loop
                   (Client.spotify_mcp_params demo_environ demo_config)
                   declared_tools,
                 Client.spotify_mcp_params demo_environ demo_config))
  /\ map Client.st_name
       (Client.discover_loop
          (Client.spotify_mcp_params demo_environ demo_config) declared_tools)
     = ["SpotifySearch"; "SpotifyQueue"].
Proof.
  split; [reflexivity | split; [reflexivity | split; [|reflexivity]]].
  exact (proj1 (discovery_connects_and_lists server_declares demo_environ
                  demo_config declared_tools
                  eq_refl eq_refl eq_refl eq_refl eq_refl eq_refl)).
Defined.

(** Discovery against a server that does not answer in time. *)
Lemma discovery_failure_propagates_witness :
  server_times_out _ Client.list_tools
  = Raises (PyError "McpError" "Timed out while waiting for response")
  /\ result server_times_out
       (Client.discover_mcp_tools demo_environ demo_config)
     = Raises (PyError "McpError" "Timed out while waiting for response").
Proof.
  split; [reflexivity|].
  exact (f_equal snd
           (discovery_failure_propagates server_times_out demo_environ
              demo_config
              (PyError "McpError" "Timed out while waiting for response")
              eq_refl eq_refl eq_refl eq_refl eq_refl eq_refl)).
Defined.

(* ================================================================== *)
(** * The lifespan snippet *)
(* ================================================================== *)

Section LifespanFacts.
Import Lifespan.
Context {F : PyFloat}.
Variable answer : forall R, db_call R -> outcome R.

(** Leaving the block: the calls of the block, then the [finally] clause
    of the generator, whichever way the block ended. *)
Lemma aexit_trace {B : Type} (db : Database) (block : prog db_call B) :
  trace answer
    (aexit (Y := AppContext) (fun resumed =>
              try_finally (match resumed with
                           | Returns _ => Stop
                           | Raises e => Fail e
                           end) (Database_disconnect db))
       block)
  = (trace answer block
     ++ [Event (Database_disconnect db) (answer _ (Database_disconnect db))])%list.
Proof.
  induction block as [b|e|R c k IH]; cbn.
  - now destruct (answer unit (Database_disconnect db)).
  - now destruct (answer unit (Database_disconnect db)).
  - now rewrite IH.
Qed.

Lemma aexit_result {B : Type} (db : Database) (block : prog db_call B) :
  answer _ (Database_disconnect db) = Returns tt ->
  result answer
    (aexit (Y := AppContext) (fun resumed =>
              try_finally (match resumed with
                           | Returns _ => Stop
                           | Raises e => Fail e
                           end) (Database_disconnect db))
       block)
  = match result answer block with
    | Returns b => Returns (Some b)
    | Raises e => Raises e
    end.
Proof.
  intros Hd. induction block as [b|e|R c k IH]; cbn.
  - now rewrite Hd.
  - now rewrite Hd.
  - apply IH.
Qed.

(** C8: the database is connected before the server starts serving, and
    whichever way serving ends, by returning or by raising an exception,
    [db.disconnect] is called after it: the run is the connection, then
    the calls of the serving, then the disconnection.  When the
    disconnection itself succeeds, the outcome of the serving is what
    comes out: its result, or the exception it raised. *)
Theorem database_is_released (server : FastMCP) (B : Type)
  (serving : AppContext -> prog db_call B) (db : Database) :
  answer _ Database_connect = Returns db ->
  trace answer (run_server app_lifespan server serving)
  = (Event Database_connect (Returns db)
     :: trace answer (serving {| db := db |})
     ++ [Event (Database_disconnect db) (answer _ (Database_disconnect db))])%list
  /\ (answer _ (Database_disconnect db) = Returns tt ->
      result answer (run_server app_lifespan server serving)
      = match result answer (serving {| db := db |}) with
        | Returns b => Returns (Some b)
        | Raises e => Raises e
        end).
Proof.
  intros Hc. unfold run_server, app_lifespan. split.
  - cbn. rewrite Hc. cbn. now rewrite aexit_trace.
  - intros Hd. cbn. rewrite Hc. cbn. now apply aexit_result.
Qed.



(** When the database cannot be connected, the server never serves:
    the failed connection is all that happens, nothing is disconnected,
    and the run ends with an exception. *)
Theorem failed_connection_stops_the_server (server : FastMCP) (B : Type)
  (serving : AppContext -> prog db_call B) (e : exn) :
  answer _ Database_connect = Raises e ->
  trace answer (run_server app_lifespan server serving)
  = [Event Database_connect (Raises e)]
  /\ exists e', result answer (run_server app_lifespan server serving)
                = Raises e'.
Proof.
  intros Hc. unfold run_server, app_lifespan. cbn. rewrite Hc. cbn.
  split; [reflexivity | eauto].
Qed.


End LifespanFacts.

(** C8 on a run of the mock: the server answers one request and then
    crashes; the database is disconnected all the same and the crash comes
    out. *)
Lemma database_is_released_witness :
  Lifespan.mock _ Lifespan.Database_connect
  = Returns Lifespan.Database_instance
  /\ trace Lifespan.mock
       (Lifespan.run_server Lifespan.app_lifespan "My App" crashing_server)
     = [ Event Lifespan.Database_connect (Returns Lifespan.Database_instance);
         Event (Lifespan.Database_query Lifespan.Database_instance)
           (Returns "Query result");
         Event (Lifespan.Database_disconnect Lifespan.Database_instance)
           (Returns tt) ]
  /\ (Lifespan.mock _ (Lifespan.Database_disconnect Lifespan.Database_instance)
      = Returns tt ->
      result Lifespan.mock
        (Lifespan.run_server Lifespan.app_lifespan "My App" crashing_server)
      = Raises (PyError "ConnectionResetError" "connection reset by peer")).
Proof.
  split; [reflexivity|].
  exact (database_is_released Lifespan.mock "My App" string crashing_server
           Lifespan.Database_instance eq_refl).
Defined.

(** A database that cannot be reached: the request is never served. *)
Lemma failed_connection_stops_the_server_witness :
  db_unreachable _ Lifespan.Database_connect
  = Raises (PyError "ConnectionRefusedError" "connection refused")
  /\ trace db_unreachable
       (Lifespan.run_server Lifespan.app_lifespan "My App" Lifespan.query_db)
     = [ Event Lifespan.Database_connect
           (Raises (PyError "ConnectionRefusedError" "connection refused")) ]
  /\ exists e',
       result db_unreachable
         (Lifespan.run_server Lifespan.app_lifespan "My App"
            Lifespan.query_db)
       = Raises e'.
Proof.
  split; [reflexivity|].
  exact (failed_connection_stops_the_server db_unreachable "My App" string
           Lifespan.query_db
           (PyError "ConnectionRefusedError" "connection refused") eq_refl).
Defined.

